(** * Personal planner: recurring-task expansion and scoped deletion

    A shallow embedding of [src/app.py] and [src/models.py].  Python
    values are a small universe [pyval]; a request payload is a finite
    map from keys to values; the record store is three tables of rows
    with auto-increment counters; a view function maps a store to a
    response and a new store.  An exception that leaves a view function
    rolls the transaction back, so the store it returns is the one it
    was given. *)

From Stdlib Require Import ZArith String Ascii List Bool Lia.
From stdpp Require Import base option list strings gmap fin_maps.

Set Warnings "-register-all".
Local Open Scope string_scope.
Local Open Scope Z_scope.
Local Open Scope list_scope.

(** ** Python values *)

(** Calendar dates are proleptic Gregorian ordinals, as Python's
    [date.toordinal]: [date.min] is 1 and [date.max] is 3652059. *)
Definition date := Z.

Definition MINORD : Z := 1.
Definition MAXORD : Z := 3652059.

(** An instant: day, seconds since midnight, microseconds, and the UTC
    offset in minutes ([None] for a naive datetime). *)
Record datetime := mkDateTime {
  dt_date : date;
  dt_secs : Z;
  dt_usec : Z;
  dt_tz : option Z
}.

(** The values a column or a JSON payload can hold.  JSON numbers are
    modelled by integers. *)
Inductive pyval :=
| PNone
| PBool (b : bool)
| PInt (z : Z)
| PStr (s : string)
| PList (l : list pyval)
| PDict (l : list (string * pyval))
| PDate (d : date)
| PDateTime (t : datetime).

(** Python truth value testing ([not v] is [negb (truthy v)]). *)
Definition truthy (v : pyval) : bool :=
  match v with
  | PNone => false
  | PBool b => b
  | PInt z => negb (Z.eqb z 0)
  | PStr s => negb (String.eqb s "")
  | PList l => match l with [] => false | _ => true end
  | PDict l => match l with [] => false | _ => true end
  | PDate _ => true
  | PDateTime _ => true
  end.

(** ** Exceptions *)

Inductive exn :=
| ValueError | AttributeError | TypeError | OverflowError | IntegrityError.

Inductive result (A : Type) :=
| Ok (a : A)
| Raise (e : exn).
Arguments Ok {A} a.
Arguments Raise {A} e.

Definition rbind {A B} (r : result A) (k : A -> result B) : result B :=
  match r with
  | Ok a => k a
  | Raise e => Raise e
  end.

Notation "'let!' x ':=' r 'in' k" := (rbind r (fun x => k))
  (at level 10, x binder, r at level 100, k at level 200).

(** ** Request payloads: [request.json] as a dictionary *)

Abbreviation payload := (gmap string pyval).

(** [data.get(k)] *)
Definition dget (data : payload) (k : string) : pyval :=
  default PNone (data !! k).

(** [data.get(k, dflt)] *)
Definition dget_or (data : payload) (k : string) (dflt : pyval) : pyval :=
  default dflt (data !! k).

(** [k in data] *)
Definition dmem (k : string) (data : payload) : bool :=
  match data !! k with Some _ => true | None => false end.

(** ** The datetime library *)

(** [datetime.fromisoformat], [datetime.strptime(_, '%Y-%m-%d').date()] and
    the two [isoformat] methods belong to the Python library; the
    development is parametric in them.  [None] stands for [ValueError]. *)
Class DatetimeLib := {
  fromisoformat : string -> option datetime;
  strptime_ymd : string -> option date;
  dt_isoformat : datetime -> string;
  date_isoformat : date -> string
}.

(** [s.replace('Z', '+00:00')] *)
Fixpoint replace_Z (s : string) : string :=
  match s with
  | EmptyString => EmptyString
  | String c r =>
      if Ascii.eqb c "Z"%char then String.append "+00:00" (replace_Z r)
      else String c (replace_Z r)
  end.

(** [date + timedelta(days=n)]: [OverflowError] outside [date.min, date.max]. *)
Definition date_add_days (d : date) (n : Z) : result date :=
  if (MINORD <=? d + n) && (d + n <=? MAXORD) then Ok (d + n)
  else Raise OverflowError.

(** [v + timedelta(days=n)] on an arbitrary value. *)
Definition py_add_days (v : pyval) (n : Z) : result pyval :=
  match v with
  | PDate d => let! d' := date_add_days d n in Ok (PDate d')
  | PDateTime t =>
      let! d' := date_add_days (dt_date t) n in
      Ok (PDateTime (mkDateTime d' (dt_secs t) (dt_usec t) (dt_tz t)))
  | _ => Raise TypeError
  end.

Section Helpers.
Context `{DatetimeLib}.

(** [parse_date]: [None] for a falsy argument; otherwise the argument's
    [replace] method is called, which only strings have with this
    signature. *)
Definition parse_date (date_str : pyval) : result pyval :=
  if negb (truthy date_str) then Ok PNone
  else match date_str with
       | PStr s =>
           match fromisoformat (replace_Z s) with
           | Some t => Ok (PDate (dt_date t))
           | None =>
               match strptime_ymd s with
               | Some d => Ok (PDate d)
               | None => Raise ValueError
               end
           end
       | PDate _ | PDateTime _ => Raise TypeError
       | _ => Raise AttributeError
       end.

(** [parse_datetime] *)
Definition parse_datetime (datetime_str : pyval) : result pyval :=
  if negb (truthy datetime_str) then Ok PNone
  else match datetime_str with
       | PStr s =>
           match fromisoformat (replace_Z s) with
           | Some t => Ok (PDateTime t)
           | None => Raise ValueError
           end
       | PDate _ | PDateTime _ => Raise TypeError
       | _ => Raise AttributeError
       end.

End Helpers.

(** ** models.py *)

(** [v.isoformat() if v else None], as the [to_dict] methods write it. *)
Definition iso_or_none `{DatetimeLib} (v : pyval) : result pyval :=
  if truthy v then
    match v with
    | PDate d => Ok (PStr (date_isoformat d))
    | PDateTime t => Ok (PStr (dt_isoformat t))
    | _ => Raise AttributeError
    end
  else Ok PNone.

(** [v.isoformat()] *)
Definition iso `{DatetimeLib} (v : pyval) : result pyval :=
  match v with
  | PDate d => Ok (PStr (date_isoformat d))
  | PDateTime t => Ok (PStr (dt_isoformat t))
  | _ => Raise AttributeError
  end.

(** A column declared with [default=] takes the default on INSERT when
    the attribute holds [None]. *)
Definition or_default (dflt v : pyval) : pyval :=
  match v with PNone => dflt | _ => v end.

Module Task.

Record t := mk {
  id : pyval;
  title : pyval;
  description : pyval;
  is_recurring : pyval;
  is_completed : pyval;
  due_date : pyval;
  start_time : pyval;
  end_time : pyval;
  time_tracked_seconds : pyval;
  created_at : pyval;
  recurrence_type : pyval;
  recurrence_group_id : pyval
}.

(** The constructor called with keyword arguments [kw]: every column
    the keywords do not mention is [None]. *)
Definition make (kw : payload) : t := {|
  id := dget kw "id";
  title := dget kw "title";
  description := dget kw "description";
  is_recurring := dget kw "is_recurring";
  is_completed := dget kw "is_completed";
  due_date := dget kw "due_date";
  start_time := dget kw "start_time";
  end_time := dget kw "end_time";
  time_tracked_seconds := dget kw "time_tracked_seconds";
  created_at := dget kw "created_at";
  recurrence_type := dget kw "recurrence_type";
  recurrence_group_id := dget kw "recurrence_group_id"
|}.

Definition to_dict `{DatetimeLib} (self : t) : result payload :=
  let! due := iso_or_none (due_date self) in
  let! st := iso_or_none (start_time self) in
  let! en := iso_or_none (end_time self) in
  let! cr := iso_or_none (created_at self) in
  Ok (<["id" := id self]>
     (<["title" := title self]>
     (<["description" := description self]>
     (<["is_recurring" := is_recurring self]>
     (<["recurrence_type" := recurrence_type self]>
     (<["is_completed" := is_completed self]>
     (<["due_date" := due]>
     (<["start_time" := st]>
     (<["end_time" := en]>
     (<["time_tracked_seconds" := time_tracked_seconds self]>
     (<["created_at" := cr]>
     (<["recurrence_group_id" := recurrence_group_id self]> ∅)))))))))))).

(** [nullable=False] columns. *)
Definition not_null_ok (self : t) : bool :=
  match title self with PNone => false | _ => true end.

End Task.

Module Event.

Record t := mk {
  id : pyval;
  title : pyval;
  description : pyval;
  start_time : pyval;
  end_time : pyval;
  created_at : pyval
}.

Definition to_dict `{DatetimeLib} (self : t) : result payload :=
  let! st := iso (start_time self) in
  let! en := iso_or_none (end_time self) in
  let! cr := iso_or_none (created_at self) in
  Ok (<["id" := id self]>
     (<["title" := title self]>
     (<["description" := description self]>
     (<["start_time" := st]>
     (<["end_time" := en]>
     (<["created_at" := cr]> ∅)))))).

Definition not_null_ok (self : t) : bool :=
  match title self, start_time self with
  | PNone, _ | _, PNone => false
  | _, _ => true
  end.

End Event.

Module JournalEntry.

Record t := mk {
  id : pyval;
  entry_type : pyval;
  content : pyval;
  timestamp : pyval
}.

Definition to_dict `{DatetimeLib} (self : t) : result payload :=
  let! ts := iso (timestamp self) in
  Ok (<["id" := id self]>
     (<["entry_type" := entry_type self]>
     (<["content" := content self]>
     (<["timestamp" := ts]> ∅)))).

(** [content] is a JSON column: Python's [None] is stored as the JSON
    value null, which satisfies NOT NULL. *)
Definition not_null_ok (self : t) : bool :=
  match entry_type self, timestamp self with
  | PNone, _ | _, PNone => false
  | _, _ => true
  end.

End JournalEntry.

(** ** The record store *)

(** Three tables in insertion order and the auto-increment counters of
    their primary keys.  Column values are kept as the session received
    them: the NOT NULL constraints and [default=] values declared in
    [models.py] are enforced, the engine's adaptation of a value to the
    SQL type of its column is not part of the model. *)
Record DB := mkDB {
  tasks : list Task.t;
  events : list Event.t;
  journal : list JournalEntry.t;
  task_seq : Z;
  event_seq : Z;
  journal_seq : Z
}.

Definition empty_db : DB := mkDB [] [] [] 1 1 1.

Definition set_tasks (l : list Task.t) (db : DB) : DB :=
  mkDB l (events db) (journal db) (task_seq db) (event_seq db) (journal_seq db).

Definition set_events (l : list Event.t) (db : DB) : DB :=
  mkDB (tasks db) l (journal db) (task_seq db) (event_seq db) (journal_seq db).

Definition set_journal (l : list JournalEntry.t) (db : DB) : DB :=
  mkDB (tasks db) (events db) l (task_seq db) (event_seq db) (journal_seq db).

(** Equality of primary keys. *)
Definition pk_eq (a b : pyval) : bool :=
  match a, b with
  | PInt x, PInt y => Z.eqb x y
  | _, _ => false
  end.

(** SQL [a = b] on a string column: never true when a side is NULL. *)
Definition sql_eq (a b : pyval) : bool :=
  match a, b with
  | PStr x, PStr y => String.eqb x y
  | _, _ => false
  end.

(** SQL [a >= b] on a date column: never true when a side is NULL. *)
Definition sql_ge (a b : pyval) : bool :=
  match a, b with
  | PDate x, PDate y => Z.leb y x
  | _, _ => false
  end.

(** [Task.query.get(task_id)] *)
Definition find_task (task_id : Z) (db : DB) : option Task.t :=
  List.find (fun t => pk_eq (Task.id t) (PInt task_id)) (tasks db).

Definition find_event (event_id : Z) (db : DB) : option Event.t :=
  List.find (fun e => pk_eq (Event.id e) (PInt event_id)) (events db).

Definition find_entry (entry_id : Z) (db : DB) : option JournalEntry.t :=
  List.find (fun e => pk_eq (JournalEntry.id e) (PInt entry_id)) (journal db).

(** The row an INSERT writes for the object [o] under primary key [pk]:
    the column defaults of [models.py] fill the attributes that hold
    [None]; [now] is the clock reading the [created_at] default takes. *)
Definition task_row (now : datetime) (pk : pyval) (o : Task.t) : Task.t := {|
  Task.id := pk;
  Task.title := Task.title o;
  Task.description := Task.description o;
  Task.is_recurring := or_default (PBool false) (Task.is_recurring o);
  Task.is_completed := or_default (PBool false) (Task.is_completed o);
  Task.due_date := Task.due_date o;
  Task.start_time := Task.start_time o;
  Task.end_time := Task.end_time o;
  Task.time_tracked_seconds := or_default (PInt 0) (Task.time_tracked_seconds o);
  Task.created_at := or_default (PDateTime now) (Task.created_at o);
  Task.recurrence_type := Task.recurrence_type o;
  Task.recurrence_group_id := Task.recurrence_group_id o
|}.

(** INSERT of a task: NOT NULL check, then the primary key from the
    counter when the object has none; a key that is already in the table
    violates the primary key constraint. *)
Definition insert_task (now : datetime) (o : Task.t) (db : DB)
  : result (Task.t * DB) :=
  if negb (Task.not_null_ok o) then Raise IntegrityError
  else
    match Task.id o with
    | PNone =>
        let row := task_row now (PInt (task_seq db)) o in
        Ok (row, mkDB (tasks db ++ [row]) (events db) (journal db)
                      (task_seq db + 1) (event_seq db) (journal_seq db))
    | PInt n =>
        if existsb (fun t => pk_eq (Task.id t) (PInt n)) (tasks db)
        then Raise IntegrityError
        else let row := task_row now (PInt n) o in
             Ok (row, set_tasks (tasks db ++ [row]) db)
    | _ => Raise TypeError
    end.

Definition insert_event (now : datetime) (o : Event.t) (db : DB)
  : result (Event.t * DB) :=
  if negb (Event.not_null_ok o) then Raise IntegrityError
  else
    let row := {|
      Event.id := PInt (event_seq db);
      Event.title := Event.title o;
      Event.description := Event.description o;
      Event.start_time := Event.start_time o;
      Event.end_time := Event.end_time o;
      Event.created_at := or_default (PDateTime now) (Event.created_at o)
    |} in
    Ok (row, mkDB (tasks db) (events db ++ [row]) (journal db)
                  (task_seq db) (event_seq db + 1) (journal_seq db)).

Definition insert_entry (now : datetime) (o : JournalEntry.t) (db : DB)
  : result (JournalEntry.t * DB) :=
  let o' := {|
    JournalEntry.id := PInt (journal_seq db);
    JournalEntry.entry_type := JournalEntry.entry_type o;
    JournalEntry.content := JournalEntry.content o;
    JournalEntry.timestamp := or_default (PDateTime now) (JournalEntry.timestamp o)
  |} in
  if negb (JournalEntry.not_null_ok o') then Raise IntegrityError
  else Ok (o', mkDB (tasks db) (events db) (journal db ++ [o'])
                    (task_seq db) (event_seq db) (journal_seq db + 1)).

(** UPDATE of the row with the object's primary key. *)
Definition update_task_row (o : Task.t) (db : DB) : result DB :=
  if negb (Task.not_null_ok o) then Raise IntegrityError
  else Ok (set_tasks
             (map (fun t => if pk_eq (Task.id t) (Task.id o) then o else t)
                  (tasks db)) db).

Definition update_event_row (o : Event.t) (db : DB) : result DB :=
  if negb (Event.not_null_ok o) then Raise IntegrityError
  else Ok (set_events
             (map (fun e => if pk_eq (Event.id e) (Event.id o) then o else e)
                  (events db)) db).

Definition update_entry_row (o : JournalEntry.t) (db : DB) : result DB :=
  if negb (JournalEntry.not_null_ok o) then Raise IntegrityError
  else Ok (set_journal
             (map (fun e => if pk_eq (JournalEntry.id e) (JournalEntry.id o)
                            then o else e)
                  (journal db)) db).

(** [db.session.delete(o)]: DELETE of the row with the object's key. *)
Definition delete_task_row (o : Task.t) (db : DB) : DB :=
  set_tasks
    (List.filter (fun t => negb (pk_eq (Task.id t) (Task.id o))) (tasks db)) db.

Definition delete_event_row (o : Event.t) (db : DB) : DB :=
  set_events
    (List.filter (fun e => negb (pk_eq (Event.id e) (Event.id o))) (events db)) db.

Definition delete_entry_row (o : JournalEntry.t) (db : DB) : DB :=
  set_journal
    (List.filter (fun e => negb (pk_eq (JournalEntry.id e) (JournalEntry.id o)))
       (journal db)) db.

(** The bulk DELETE of [delete_task]: rows of the target's group whose
    due date is not before the target's. *)
Definition in_series_from (task : Task.t) (t : Task.t) : bool :=
  sql_eq (Task.recurrence_group_id t) (Task.recurrence_group_id task)
  && sql_ge (Task.due_date t) (Task.due_date task).

Definition delete_series_from (task : Task.t) (db : DB) : DB :=
  set_tasks (List.filter (fun t => negb (in_series_from task t)) (tasks db)) db.

(** Flushing the pending objects of a session, in the order they were
    added; the [k]-th inserted row reads the clock once. *)
Fixpoint flush_tasks (now : nat -> datetime) (k : nat) (pending : list Task.t)
    (db : DB) : result DB :=
  match pending with
  | [] => Ok db
  | o :: rest =>
      let! r := insert_task (now k) o db in
      flush_tasks now (S k) rest (snd r)
  end.

(** ** app.py *)

(** [str(u)] for a UUID with 128-bit integer value [u]: 32 lowercase
    hexadecimal digits in groups of 8-4-4-4-12. *)
Definition hex_digit (n : N) : ascii :=
  match n with
  | 0 => "0" | 1 => "1" | 2 => "2" | 3 => "3" | 4 => "4" | 5 => "5"
  | 6 => "6" | 7 => "7" | 8 => "8" | 9 => "9" | 10 => "a" | 11 => "b"
  | 12 => "c" | 13 => "d" | 14 => "e" | _ => "f"
  end%N%char.

Fixpoint hex_field (u : N) (top len : nat) : string :=
  match len with
  | O => EmptyString
  | S len' =>
      String (hex_digit (N.land (N.shiftr u (4 * N.of_nat top)) 15))
             (hex_field u (Nat.pred top) len')
  end.

Definition uuid_str (u : N) : string :=
  String.append (hex_field u 31 8) (String.append "-"
 (String.append (hex_field u 23 4) (String.append "-"
 (String.append (hex_field u 19 4) (String.append "-"
 (String.append (hex_field u 15 4) (String.append "-"
                (hex_field u 11 12)))))))).

Arguments uuid_str : simpl never.

(** What a view function hands back to the framework. *)
Inductive response :=
| Json (body : payload) (status : Z)   (* [jsonify(body), status] *)
| NoContent                            (* ['', 204] *)
| NotFound                             (* [get_or_404] aborted *)
| ServerError (e : exn).               (* an exception left the view *)

(** [range(lo, hi)] *)
Definition py_range (lo hi : Z) : list Z :=
  map (fun k => lo + Z.of_nat k) (seq 0 (Z.to_nat (hi - lo))).

(** An entry of [recurrence_periods]: [delta] in days, and [count]. *)
Record period := mkPeriod { delta : Z; count : Z }.

Definition recurrence_periods : gmap string period :=
  <["daily" := mkPeriod 1 90]> (<["weekly" := mkPeriod 7 12]> ∅).

(** [recurrence_periods.get(key)]: a list or a dictionary is not
    hashable; a key that is not a string is not in the table. *)
Definition recurrence_periods_get (key : pyval) : result (option period) :=
  match key with
  | PStr s => Ok (recurrence_periods !! s)
  | PList _ | PDict _ => Raise TypeError
  | _ => Ok None
  end.

Section App.
Context `{DatetimeLib}.

(** The loop of [_create_recurring_tasks]; [session] is the list of
    objects added to the session so far. *)
Fixpoint add_instances (original_task : Task.t) (task_data : payload)
    (config : period) (range : list Z) (session : list Task.t)
  : result (list Task.t) :=
  match range with
  | [] => Ok session
  | i :: rest =>
      let! new_due_date :=
        py_add_days (Task.due_date original_task) (delta config * i) in
      add_instances original_task task_data config rest
        (session ++ [Task.make (<["due_date" := new_due_date]> task_data)])
  end.

Definition _create_recurring_tasks (original_task : Task.t)
    (session : list Task.t) : result (list Task.t) :=
  if negb (truthy (Task.is_recurring original_task))
     || negb (truthy (Task.recurrence_type original_task))
  then Ok session
  else
    let! task_data := Task.to_dict original_task in
    let task_data := delete "id" task_data in
    let task_data := delete "due_date" task_data in
    let task_data := delete "is_completed" task_data in
    let task_data := delete "time_tracked_seconds" task_data in
    let task_data := delete "created_at" task_data in
    let! config := recurrence_periods_get (Task.recurrence_type original_task) in
    match config with
    | Some config =>
        add_instances original_task task_data config
          (py_range 1 (count config + 1)) session
    | None => Ok session
    end.

Definition error_body (msg : string) : payload := <["error" := PStr msg]> ∅.

(** The body of a JSON response; [to_dict] runs after the commit. *)
Definition jsonify (body : result payload) (status : Z) : response :=
  match body with
  | Ok d => Json d status
  | Raise e => ServerError e
  end.

(** POST /tasks.  [uuid4] is the value [uuid.uuid4()] draws and [now] the
    successive readings of the clock during the request. *)
Definition create_task (uuid4 : N) (now : nat -> datetime) (data : payload)
    (db : DB) : response * DB :=
  match parse_date (dget data "due_date") with
  | Raise e => (ServerError e, db)
  | Ok due_date =>
      if negb (truthy (dget data "title")) || negb (truthy due_date)
      then (Json (error_body "Title and due_date are required") 400, db)
      else
        let is_recurring := dget_or data "is_recurring" (PBool false) in
        let recurrence_group_id :=
          if truthy is_recurring then PStr (uuid_str uuid4) else PNone in
        let tx :=
          let! start_time := parse_datetime (dget data "start_time") in
          let! end_time := parse_datetime (dget data "end_time") in
          let new_task := {|
            Task.id := PNone;
            Task.title := dget data "title";
            Task.description := dget data "description";
            Task.is_recurring := is_recurring;
            Task.is_completed := PNone;
            Task.due_date := due_date;
            Task.start_time := start_time;
            Task.end_time := end_time;
            Task.time_tracked_seconds := PNone;
            Task.created_at := PNone;
            Task.recurrence_type := dget data "recurrence_type";
            Task.recurrence_group_id := recurrence_group_id
          |} in
          (* session.add(new_task); session.flush() *)
          let! flushed := insert_task (now O) new_task db in
          let! session := _create_recurring_tasks (fst flushed) [] in
          (* session.commit() *)
          let! db' := flush_tasks now 1 session (snd flushed) in
          Ok (fst flushed, db') in
        match tx with
        | Raise e => (ServerError e, db)
        | Ok (new_task, db') => (jsonify (Task.to_dict new_task) 201, db')
        end
  end.

(** PUT /tasks/<task_id> *)
Definition update_task (task_id : Z) (data : payload) (db : DB)
  : response * DB :=
  match find_task task_id db with
  | None => (NotFound, db)
  | Some task =>
      let task' := {|
        Task.id := Task.id task;
        Task.title := dget_or data "title" (Task.title task);
        Task.description := dget_or data "description" (Task.description task);
        Task.is_recurring := Task.is_recurring task;
        Task.is_completed := dget_or data "is_completed" (Task.is_completed task);
        Task.due_date := Task.due_date task;
        Task.start_time := Task.start_time task;
        Task.end_time := Task.end_time task;
        Task.time_tracked_seconds :=
          dget_or data "time_tracked_seconds" (Task.time_tracked_seconds task);
        Task.created_at := Task.created_at task;
        Task.recurrence_type := Task.recurrence_type task;
        Task.recurrence_group_id := Task.recurrence_group_id task
      |} in
      match update_task_row task' db with
      | Raise e => (ServerError e, db)
      | Ok db' => (jsonify (Task.to_dict task') 200, db')
      end
  end.

(** DELETE /tasks/<task_id>; [apply_to] is [request.args.get('apply_to')]. *)
Definition delete_task (task_id : Z) (apply_to : option string) (db : DB)
  : response * DB :=
  match find_task task_id db with
  | None => (NotFound, db)
  | Some task =>
      if match apply_to with
         | Some s => String.eqb s "all_future"
         | None => false
         end && truthy (Task.recurrence_group_id task)
      then (NoContent, delete_series_from task db)
      else (NoContent, delete_task_row task db)
  end.

(** POST /events *)
Definition create_event (now : nat -> datetime) (data : payload) (db : DB)
  : response * DB :=
  if negb (truthy (dget data "title")) || negb (truthy (dget data "start_time"))
  then (Json (error_body "Title and start_time are required") 400, db)
  else
    let tx :=
      let! start_time := parse_datetime (dget data "start_time") in
      let! end_time := parse_datetime (dget data "end_time") in
      insert_event (now O)
        {| Event.id := PNone;
           Event.title := dget data "title";
           Event.description := dget data "description";
           Event.start_time := start_time;
           Event.end_time := end_time;
           Event.created_at := PNone |} db in
    match tx with
    | Raise e => (ServerError e, db)
    | Ok (new_event, db') => (jsonify (Event.to_dict new_event) 201, db')
    end.

(** PUT /events/<event_id> *)
Definition update_event (event_id : Z) (data : payload) (db : DB)
  : response * DB :=
  match find_event event_id db with
  | None => (NotFound, db)
  | Some event =>
      let tx :=
        let! new_start_time := parse_datetime (dget data "start_time") in
        let! end_time :=
          if dmem "end_time" data then parse_datetime (dget data "end_time")
          else Ok (Event.end_time event) in
        let event' := {|
          Event.id := Event.id event;
          Event.title := dget_or data "title" (Event.title event);
          Event.description :=
            dget_or data "description" (Event.description event);
          Event.start_time :=
            if truthy new_start_time then new_start_time
            else Event.start_time event;
          Event.end_time := end_time;
          Event.created_at := Event.created_at event
        |} in
        let! db' := update_event_row event' db in
        Ok (event', db') in
      match tx with
      | Raise e => (ServerError e, db)
      | Ok (event', db') => (jsonify (Event.to_dict event') 200, db')
      end
  end.

(** DELETE /events/<event_id> *)
Definition delete_event (event_id : Z) (db : DB) : response * DB :=
  match find_event event_id db with
  | None => (NotFound, db)
  | Some event => (NoContent, delete_event_row event db)
  end.

(** POST /journal *)
Definition create_journal_entry (now : nat -> datetime) (data : payload)
    (db : DB) : response * DB :=
  if negb (truthy (dget data "entry_type")) || negb (truthy (dget data "content"))
  then (Json (error_body "entry_type and content are required") 400, db)
  else
    let tx :=
      let! ts := parse_datetime (dget data "timestamp") in
      insert_entry (now 1%nat)
        {| JournalEntry.id := PNone;
           JournalEntry.entry_type := dget data "entry_type";
           JournalEntry.content := dget data "content";
           JournalEntry.timestamp :=
             if truthy ts then ts else PDateTime (now O) |} db in
    match tx with
    | Raise e => (ServerError e, db)
    | Ok (new_entry, db') => (jsonify (JournalEntry.to_dict new_entry) 201, db')
    end.

(** PUT /journal/<entry_id> *)
Definition update_journal_entry (entry_id : Z) (data : payload) (db : DB)
  : response * DB :=
  match find_entry entry_id db with
  | None => (NotFound, db)
  | Some entry =>
      let tx :=
        let! new_timestamp := parse_datetime (dget data "timestamp") in
        let entry' := {|
          JournalEntry.id := JournalEntry.id entry;
          JournalEntry.entry_type := JournalEntry.entry_type entry;
          JournalEntry.content :=
            dget_or data "content" (JournalEntry.content entry);
          JournalEntry.timestamp :=
            if truthy new_timestamp then new_timestamp
            else JournalEntry.timestamp entry
        |} in
        let! db' := update_entry_row entry' db in
        Ok (entry', db') in
      match tx with
      | Raise e => (ServerError e, db)
      | Ok (entry', db') => (jsonify (JournalEntry.to_dict entry') 200, db')
      end
  end.

(** DELETE /journal/<entry_id> *)
Definition delete_journal_entry (entry_id : Z) (db : DB) : response * DB :=
  match find_entry entry_id db with
  | None => (NotFound, db)
  | Some entry => (NoContent, delete_entry_row entry db)
  end.

End App.

(** ** A reference instance of the datetime library

    The ISO forms [YYYY-MM-DD], [YYYY-MM-DDTHH:MM:SS] and
    [YYYY-MM-DDTHH:MM:SS+HH:MM] with Python's calendar arithmetic
    ([_ymd2ord] and [_ord2ymd] of [datetime.py]).  It is used to run the
    view functions on concrete requests. *)
Module RefLib.

Definition digit_of (c : ascii) : option Z :=
  let k := Z.of_N (N_of_ascii c) - 48 in
  if (0 <=? k) && (k <=? 9) then Some k else None.

Fixpoint take_digits (n : nat) (acc : Z) (s : string) : option (Z * string) :=
  match n with
  | O => Some (acc, s)
  | S n' =>
      match s with
      | String c r =>
          match digit_of c with
          | Some d => take_digits n' (10 * acc + d) r
          | None => None
          end
      | EmptyString => None
      end
  end.

Definition expect (c : ascii) (s : string) : option string :=
  match s with
  | String c' r => if Ascii.eqb c c' then Some r else None
  | EmptyString => None
  end.

Definition is_leap (y : Z) : bool :=
  (y mod 4 =? 0) && (negb (y mod 100 =? 0) || (y mod 400 =? 0)).

Definition days_before_year (y : Z) : Z :=
  let y1 := y - 1 in y1 * 365 + y1 / 4 - y1 / 100 + y1 / 400.

Definition days_in_month (y m : Z) : Z :=
  if m =? 2 then (if is_leap y then 29 else 28)
  else if (m =? 4) || (m =? 6) || (m =? 9) || (m =? 11) then 30 else 31.

(** [_DAYS_BEFORE_MONTH] *)
Definition DAYS_BEFORE_MONTH (m : Z) : Z :=
  nth (Z.to_nat m) [0; 0; 31; 59; 90; 120; 151; 181; 212; 243; 273; 304; 334] 0.

Definition days_before_month (y m : Z) : Z :=
  DAYS_BEFORE_MONTH m + (if (2 <? m) && is_leap y then 1 else 0).

Definition ymd2ord (y m d : Z) : Z :=
  days_before_year y + days_before_month y m + d.

Definition ord2ymd (n0 : Z) : Z * Z * Z :=
  let n := n0 - 1 in
  let n400 := n / 146097 in let n := n mod 146097 in
  let n100 := n / 36524 in let n := n mod 36524 in
  let n4 := n / 1461 in let n := n mod 1461 in
  let n1 := n / 365 in let n := n mod 365 in
  let year := n400 * 400 + 1 + n100 * 100 + n4 * 4 + n1 in
  if (n1 =? 4) || (n100 =? 4) then (year - 1, 12, 31)
  else
    let leapyear := (n1 =? 3) && (negb (n4 =? 24) || (n100 =? 3)) in
    let month := Z.shiftr (n + 50) 5 in
    let preceding :=
      DAYS_BEFORE_MONTH month + (if (2 <? month) && leapyear then 1 else 0) in
    if n <? preceding then
      let month' := month - 1 in
      let preceding' :=
        preceding
        - (nth (Z.to_nat month') [0; 31; 28; 31; 30; 31; 30; 31; 31; 30; 31; 30; 31] 0
           + (if (month' =? 2) && leapyear then 1 else 0)) in
      (year, month', n - preceding' + 1)
    else (year, month, n - preceding + 1).

Definition parse_ymd (s : string) : option (Z * string) :=
  '(y, s) ← take_digits 4 0 s;
  s ← expect "-" s;
  '(m, s) ← take_digits 2 0 s;
  s ← expect "-" s;
  '(d, s) ← take_digits 2 0 s;
  if (1 <=? y) && (1 <=? m) && (m <=? 12) && (1 <=? d) && (d <=? days_in_month y m)
  then Some (ymd2ord y m d, s) else None.

Definition parse_hms (s : string) : option (Z * string) :=
  '(h, s) ← take_digits 2 0 s;
  s ← expect ":" s;
  '(mi, s) ← take_digits 2 0 s;
  s ← expect ":" s;
  '(se, s) ← take_digits 2 0 s;
  if (h <=? 23) && (mi <=? 59) && (se <=? 59)
  then Some (h * 3600 + mi * 60 + se, s) else None.

Definition parse_offset (s : string) : option (option Z) :=
  match s with
  | EmptyString => Some None
  | String c r =>
      if Ascii.eqb c "+" || Ascii.eqb c "-" then
        '(h, r) ← take_digits 2 0 r;
        r ← expect ":" r;
        '(mi, r) ← take_digits 2 0 r;
        match r with
        | EmptyString =>
            if (h <=? 23) && (mi <=? 59)
            then Some (Some ((if Ascii.eqb c "-" then -1 else 1) * (h * 60 + mi)))
            else None
        | _ => None
        end
      else None
  end.

Definition fromisoformat (s : string) : option datetime :=
  '(d, s) ← parse_ymd s;
  match s with
  | EmptyString => Some (mkDateTime d 0 0 None)
  | String c r =>
      if Ascii.eqb c "T" || Ascii.eqb c " " then
        '(secs, r) ← parse_hms r;
        tz ← parse_offset r;
        Some (mkDateTime d secs 0 tz)
      else None
  end.

Definition strptime_ymd (s : string) : option date :=
  '(d, s) ← parse_ymd s;
  match s with EmptyString => Some d | _ => None end.

Definition digit_char (k : Z) : ascii := ascii_of_N (Z.to_N (48 + k mod 10)).

Definition pad2 (n : Z) (rest : string) : string :=
  String (digit_char (n / 10)) (String (digit_char n) rest).

Definition pad4 (n : Z) (rest : string) : string :=
  pad2 (n / 100) (pad2 n rest).

Definition fmt_date (d : date) (rest : string) : string :=
  let '(y, m, dd) := ord2ymd d in
  pad4 y (String "-" (pad2 m (String "-" (pad2 dd rest)))).

Definition date_isoformat (d : date) : string := fmt_date d EmptyString.

Definition fmt_offset (tz : option Z) : string :=
  match tz with
  | None => EmptyString
  | Some off =>
      String (if off <? 0 then "-"%char else "+"%char)
        (pad2 (Z.abs off / 60) (String ":" (pad2 (Z.abs off mod 60) EmptyString)))
  end.

Definition fmt_usec (us : Z) (rest : string) : string :=
  if us =? 0 then rest
  else String "." (pad2 (us / 10000) (pad2 (us / 100) (pad2 us rest))).

Definition dt_isoformat (t : datetime) : string :=
  fmt_date (dt_date t)
    (String "T"
       (pad2 (dt_secs t / 3600)
          (String ":"
             (pad2 (dt_secs t / 60 mod 60)
                (String ":"
                   (pad2 (dt_secs t mod 60)
                      (fmt_usec (dt_usec t) (fmt_offset (dt_tz t))))))))).

End RefLib.

#[export] Instance ref_lib : DatetimeLib := {|
  fromisoformat := RefLib.fromisoformat;
  strptime_ymd := RefLib.strptime_ymd;
  dt_isoformat := RefLib.dt_isoformat;
  date_isoformat := RefLib.date_isoformat
|}.


(** ** Reachable stores and their invariant *)

(** The stores the API can produce from the empty one. *)
Inductive reachable `{DatetimeLib} : DB -> Prop :=
| reach_empty : reachable empty_db
| reach_create_task u now data db :
    reachable db -> reachable (snd (create_task u now data db))
| reach_update_task task_id data db :
    reachable db -> reachable (snd (update_task task_id data db))
| reach_delete_task task_id apply_to db :
    reachable db -> reachable (snd (delete_task task_id apply_to db))
| reach_create_event now data db :
    reachable db -> reachable (snd (create_event now data db))
| reach_update_event event_id data db :
    reachable db -> reachable (snd (update_event event_id data db))
| reach_delete_event event_id db :
    reachable db -> reachable (snd (delete_event event_id db))
| reach_create_journal_entry now data db :
    reachable db -> reachable (snd (create_journal_entry now data db))
| reach_update_journal_entry entry_id data db :
    reachable db -> reachable (snd (update_journal_entry entry_id data db))
| reach_delete_journal_entry entry_id db :
    reachable db -> reachable (snd (delete_journal_entry entry_id db)).

(** What holds of every stored task row. *)
Record task_ok (t : Task.t) : Prop := {
  ok_id : exists n, Task.id t = PInt n;
  ok_title : Task.title t <> PNone;
  ok_due : exists d, Task.due_date t = PDate d;
  ok_group : Task.recurrence_group_id t = PNone
             \/ exists s, Task.recurrence_group_id t = PStr s /\ s <> "";
  ok_flag : Task.recurrence_group_id t <> PNone
            <-> truthy (Task.is_recurring t) = true
}.

Definition below_seq (db : DB) (t : Task.t) : Prop :=
  exists n, Task.id t = PInt n /\ n < task_seq db.

Record db_ok (db : DB) : Prop := {
  ok_rows : Forall task_ok (tasks db);
  ok_keys : NoDup (map Task.id (tasks db));
  ok_seq : Forall (below_seq db) (tasks db)
}.

(** [a] is a date not after the date [b]. *)
Definition date_le (a b : pyval) : Prop :=
  exists x y, a = PDate x /\ b = PDate y /\ x <= y.


(** The object [_create_recurring_tasks] builds from the template [o]:
    [st] and [en] are the start and end entries of the template's
    dictionary and [v] is the new due date. *)
Definition sibling_of (o : Task.t) (st en v : pyval) : Task.t := {|
  Task.id := PNone;
  Task.title := Task.title o;
  Task.description := Task.description o;
  Task.is_recurring := Task.is_recurring o;
  Task.is_completed := PNone;
  Task.due_date := v;
  Task.start_time := st;
  Task.end_time := en;
  Task.time_tracked_seconds := PNone;
  Task.created_at := PNone;
  Task.recurrence_type := Task.recurrence_type o;
  Task.recurrence_group_id := Task.recurrence_group_id o
|}.


(** The rows a flush writes for the pending objects [l], starting at
    clock reading [k] and primary key [pk]. *)
Fixpoint rows_from (now : nat -> datetime) (k : nat) (pk : Z)
    (l : list Task.t) : list Task.t :=
  match l with
  | [] => []
  | o :: rest => task_row (now k) (PInt pk) o :: rows_from now (S k) (pk + 1) rest
  end.

(** The object [create_task] hands to the session, given the parsed
    due date, start and end. *)
Definition new_task_of (uuid4 : N) (data : payload) (due st en : pyval)
  : Task.t := {|
  Task.id := PNone;
  Task.title := dget data "title";
  Task.description := dget data "description";
  Task.is_recurring := dget_or data "is_recurring" (PBool false);
  Task.is_completed := PNone;
  Task.due_date := due;
  Task.start_time := st;
  Task.end_time := en;
  Task.time_tracked_seconds := PNone;
  Task.created_at := PNone;
  Task.recurrence_type := dget data "recurrence_type";
  Task.recurrence_group_id :=
    if truthy (dget_or data "is_recurring" (PBool false))
    then PStr (uuid_str uuid4) else PNone
|}.

(** The store after the template row [row] was flushed. *)
Definition with_template (row : Task.t) (db : DB) : DB :=
  mkDB (tasks db ++ [row]) (events db) (journal db)
       (task_seq db + 1) (event_seq db) (journal_seq db).

(** The attributes of [task] after the four assignments of
    [update_task]. *)
Definition updated_task (data : payload) (task : Task.t) : Task.t := {|
  Task.id := Task.id task;
  Task.title := dget_or data "title" (Task.title task);
  Task.description := dget_or data "description" (Task.description task);
  Task.is_recurring := Task.is_recurring task;
  Task.is_completed := dget_or data "is_completed" (Task.is_completed task);
  Task.due_date := Task.due_date task;
  Task.start_time := Task.start_time task;
  Task.end_time := Task.end_time task;
  Task.time_tracked_seconds :=
    dget_or data "time_tracked_seconds" (Task.time_tracked_seconds task);
  Task.created_at := Task.created_at task;
  Task.recurrence_type := Task.recurrence_type task;
  Task.recurrence_group_id := Task.recurrence_group_id task
|}.

(** ** Sample requests *)

Definition now0 (k : nat) : datetime :=
  mkDateTime 738886 (36000 + Z.of_nat k) 0 (Some 0).

Definition req_weekly : payload :=
  <["title" := PStr "water plants"]>
  (<["due_date" := PStr "2024-01-01"]>
  (<["is_recurring" := PBool true]>
  (<["recurrence_type" := PStr "weekly"]>
  (<["start_time" := PStr "2024-01-01T09:00:00Z"]> ∅)))).


Definition req_daily : payload :=
  <["title" := PStr "stretch"]>
  (<["due_date" := PStr "2024-01-01"]>
  (<["is_recurring" := PBool true]>
  (<["recurrence_type" := PStr "daily"]> ∅))).


Definition req_plain : payload :=
  <["title" := PStr "buy milk"]> (<["due_date" := PStr "2024-01-01"]> ∅).

Definition req_no_due : payload :=
  <["title" := PStr "buy milk"]> (<["is_recurring" := PBool false]> ∅).


Definition req_event : payload :=
  <["title" := PStr "dentist"]>
  (<["start_time" := PStr "2024-03-01T10:00:00Z"]>
  (<["end_time" := PStr "2024-03-01T11:00:00Z"]> ∅)).





Definition upd_description_null : payload := <["description" := PNone]> ∅.

Definition uuid0 : N := 0x123e4567e89b42d3a456426614174000%N.

Definition db_series : DB := snd (create_task uuid0 now0 req_weekly empty_db).

Definition db_one_task : DB := snd (create_task uuid0 now0 req_plain empty_db).

Definition db_one_event : DB := snd (create_event now0 req_event empty_db).

(** ** Read endpoints and the invariants of events and journal entries *)

(** The list comprehension [[f(x) for x in l]]: elements are visited in
    order and the first exception leaves the comprehension. *)
Fixpoint collect {A B} (f : A -> result B) (l : list A) : result (list B) :=
  match l with
  | [] => Ok []
  | x :: rest =>
      let! y := f x in
      let! ys := collect f rest in
      Ok (y :: ys)
  end.

(** GET /tasks: the list handed to [jsonify]. *)
Definition get_tasks `{DatetimeLib} (db : DB) : result (list payload) :=
  collect Task.to_dict (tasks db).

(** GET /events: the list handed to [jsonify]. *)
Definition get_events `{DatetimeLib} (db : DB) : result (list payload) :=
  collect Event.to_dict (events db).

(** A task row whose date and instant columns hold a value of their
    type, or [None]. *)
Record typed_task (t : Task.t) : Prop := {
  typed_due : Task.due_date t = PNone \/ exists d, Task.due_date t = PDate d;
  typed_start : Task.start_time t = PNone
                \/ exists i, Task.start_time t = PDateTime i;
  typed_end : Task.end_time t = PNone \/ exists i, Task.end_time t = PDateTime i;
  typed_created : Task.created_at t = PNone
                  \/ exists i, Task.created_at t = PDateTime i
}.

(** What holds of every stored event row. *)
Record event_ok (e : Event.t) : Prop := {
  ev_id : exists n, Event.id e = PInt n;
  ev_title : Event.title e <> PNone;
  ev_start : exists i, Event.start_time e = PDateTime i;
  ev_end : Event.end_time e = PNone \/ exists i, Event.end_time e = PDateTime i;
  ev_created : exists i, Event.created_at e = PDateTime i
}.

Record events_ok (db : DB) : Prop := {
  evs_rows : Forall event_ok (events db);
  evs_keys : NoDup (map Event.id (events db));
  evs_seq : Forall (fun e => exists n, Event.id e = PInt n /\ n < event_seq db)
                   (events db)
}.

(** What holds of every stored journal entry. *)
Record entry_ok (e : JournalEntry.t) : Prop := {
  en_id : exists n, JournalEntry.id e = PInt n;
  en_type : truthy (JournalEntry.entry_type e) = true;
  en_timestamp : exists i, JournalEntry.timestamp e = PDateTime i
}.

Record journal_ok (db : DB) : Prop := {
  jn_rows : Forall entry_ok (journal db);
  jn_keys : NoDup (map JournalEntry.id (journal db));
  jn_seq : Forall (fun e => exists n, JournalEntry.id e = PInt n
                            /\ n < journal_seq db)
                  (journal db)
}.

(** The counters and the tables other than the task table. *)
Definition same_but_tasks (db db' : DB) : Prop :=
  events db' = events db /\ journal db' = journal db
  /\ event_seq db' = event_seq db /\ journal_seq db' = journal_seq db.

Definition same_but_events (db db' : DB) : Prop :=
  tasks db' = tasks db /\ journal db' = journal db
  /\ task_seq db' = task_seq db /\ journal_seq db' = journal_seq db.

Definition same_but_journal (db db' : DB) : Prop :=
  tasks db' = tasks db /\ events db' = events db
  /\ task_seq db' = task_seq db /\ event_seq db' = event_seq db.

Definition req_entry : payload :=
  <["entry_type" := PStr "mood"]> (<["content" := PStr "calm"]> ∅).



Definition db_daily : DB := snd (create_task uuid0 now0 req_daily empty_db).

Definition db_one_entry : DB := snd (create_journal_entry now0 req_entry empty_db).

(** A truthy JSON value that is not a string: [true], a number other
    than 0, a non-empty array or object. *)
Definition truthy_non_string (v : pyval) : bool :=
  truthy v
  && match v with
     | PBool _ | PInt _ | PList _ | PDict _ => true
     | _ => false
     end.

Definition req_numeric_due : payload :=
  <["title" := PStr "buy milk"]> (<["due_date" := PInt 20240101]> ∅).

Definition tmpl_weekly : Task.t :=
  task_row (now0 O) (PInt 1)
    (new_task_of uuid0 req_weekly (PDate 738886)
       (PDateTime (mkDateTime 738886 32400 0 (Some 0))) PNone).

(** ** Values, parsing, identifiers *)

Lemma truthy_not_none v : truthy v = true -> v <> PNone.
Proof. by intros Hv ->. Qed.

Lemma uuid_head u : exists c r, uuid_str u = String c r.
Proof. unfold uuid_str. cbn [hex_field String.append]. eauto. Qed.

Lemma uuid_str_nonempty u : uuid_str u <> "".
Proof. destruct (uuid_head u) as (c & r & ->). discriminate. Qed.


Section ParseFacts.
Context `{DatetimeLib}.

Lemma parse_date_shape v r :
  parse_date v = Ok r -> r = PNone \/ exists d, r = PDate d.
Proof.
  unfold parse_date. destruct (negb (truthy v)); [intros [= <-]; by left|].
  destruct v; try discriminate.
  destruct (fromisoformat _); [intros [= <-]; eauto|].
  destruct (strptime_ymd _); [intros [= <-]; eauto|discriminate].
Qed.

Lemma parse_datetime_shape v r :
  parse_datetime v = Ok r -> r = PNone \/ exists t, r = PDateTime t.
Proof.
  unfold parse_datetime. destruct (negb (truthy v)); [intros [= <-]; by left|].
  destruct v; try discriminate.
  destruct (fromisoformat _); [intros [= <-]; eauto|discriminate].
Qed.

Lemma parse_date_falsy v : truthy v = false -> parse_date v = Ok PNone.
Proof. unfold parse_date. by intros ->. Qed.

Lemma parse_datetime_falsy v : truthy v = false -> parse_datetime v = Ok PNone.
Proof. unfold parse_datetime. by intros ->. Qed.

Lemma sibling_kwargs (o : Task.t) (d : payload) :
  Task.to_dict o = Ok d ->
  exists st en,
    iso_or_none (Task.start_time o) = Ok st /\
    iso_or_none (Task.end_time o) = Ok en /\
    forall v,
      Task.make
        (<["due_date" := v]>
           (delete "created_at" (delete "time_tracked_seconds"
              (delete "is_completed" (delete "due_date" (delete "id" d))))))
      = sibling_of o st en v.
Proof.
  unfold Task.to_dict.
  destruct (iso_or_none (Task.due_date o)) as [due|]; [|discriminate].
  destruct (iso_or_none (Task.start_time o)) as [st|]; [|discriminate].
  destruct (iso_or_none (Task.end_time o)) as [en|]; [|discriminate].
  destruct (iso_or_none (Task.created_at o)) as [cr|]; [|discriminate].
  simpl. intros [= <-]. exists st, en. do 2 (split; [done|]).
  intros v. unfold Task.make, sibling_of, dget. by simplify_map_eq.
Qed.

End ParseFacts.

(** ** The store under INSERT *)

Lemma insert_task_fresh now o db :
  Task.id o = PNone -> Task.title o <> PNone ->
  insert_task now o db
  = Ok (task_row now (PInt (task_seq db)) o,
        mkDB (tasks db ++ [task_row now (PInt (task_seq db)) o])
             (events db) (journal db)
             (task_seq db + 1) (event_seq db) (journal_seq db)).
Proof.
  intros Hid Ht. unfold insert_task, Task.not_null_ok.
  rewrite Hid. by destruct (Task.title o).
Qed.

Lemma flush_tasks_fresh now l : forall k db,
  Forall (fun o => Task.id o = PNone /\ Task.title o <> PNone) l ->
  flush_tasks now k l db
  = Ok (mkDB (tasks db ++ rows_from now k (task_seq db) l)
             (events db) (journal db)
             (task_seq db + Z.of_nat (length l)) (event_seq db) (journal_seq db)).
Proof.
  induction l as [|o l IH]; intros k db Hl; simpl.
  - rewrite app_nil_r, Z.add_0_r. by destruct db.
  - inversion Hl as [|? ? [Hid Ht] Hl']; subst.
    rewrite insert_task_fresh by done. simpl.
    rewrite IH by done. simpl. rewrite <- app_assoc. simpl.
    do 2 f_equal. lia.
Qed.


(** ** Recurrence expansion *)

Section Expansion.
Context `{DatetimeLib}.



Lemma recurrence_periods_known cad cfg :
  recurrence_periods !! cad = Some cfg ->
  (cad = "daily" /\ cfg = mkPeriod 1 90) \/ (cad = "weekly" /\ cfg = mkPeriod 7 12).
Proof.
  unfold recurrence_periods. intros Hl.
  destruct (decide (cad = "daily")) as [->|Hd].
  - rewrite lookup_insert_eq in Hl. left. split; congruence.
  - rewrite lookup_insert_ne in Hl by done.
    destruct (decide (cad = "weekly")) as [->|Hw].
    + rewrite lookup_insert_eq in Hl. right. split; congruence.
    + rewrite lookup_insert_ne in Hl by done. done.
Qed.


Lemma py_range_length lo hi : length (py_range lo hi) = Z.to_nat (hi - lo).
Proof. unfold py_range. by rewrite length_map, length_seq. Qed.

(** No instance when the task is not recurring or has no cadence. *)
Lemma no_instances_not_recurring o session :
  truthy (Task.is_recurring o) = false \/ truthy (Task.recurrence_type o) = false ->
  _create_recurring_tasks o session = Ok session.
Proof.
  unfold _create_recurring_tasks. intros [-> | ->]; simpl; [done|].
  by rewrite orb_true_r.
Qed.




End Expansion.

(** ** Task creation *)



Section CreateTask.
Context `{DatetimeLib}.

(** A request that passes validation and parsing inserts the template,
    expands it, and commits. *)
Lemma create_task_valid uuid4 now data db D st en :
  truthy (dget data "title") = true ->
  parse_date (dget data "due_date") = Ok (PDate D) ->
  parse_datetime (dget data "start_time") = Ok st ->
  parse_datetime (dget data "end_time") = Ok en ->
  let template :=
    task_row (now O) (PInt (task_seq db)) (new_task_of uuid4 data (PDate D) st en) in
  create_task uuid4 now data db
  = match (let! session := _create_recurring_tasks template [] in
           flush_tasks now 1 session (with_template template db)) with
    | Raise e => (ServerError e, db)
    | Ok db' => (jsonify (Task.to_dict template) 201, db')
    end.
Proof.
  intros Ht HD Hst Hen template. unfold create_task.
  rewrite HD, Ht, Hst, Hen. simpl.
  fold (new_task_of uuid4 data (PDate D) st en).
  rewrite insert_task_fresh; [|done|by apply truthy_not_none].
  simpl. fold template. fold (with_template template db).
  destruct (_create_recurring_tasks template []) as [session|e]; simpl; [|done].
  by destruct (flush_tasks now 1 session _).
Qed.

Lemma template_to_dict uuid4 now data pk D vs ve st en :
  parse_datetime vs = Ok st -> parse_datetime ve = Ok en ->
  exists body,
    Task.to_dict (task_row now pk (new_task_of uuid4 data (PDate D) st en))
    = Ok body.
Proof.
  intros [-> | [ts ->]]%parse_datetime_shape [-> | [te ->]]%parse_datetime_shape;
    unfold Task.to_dict; simpl; eauto.
Qed.

End CreateTask.

(** ** Claims about task creation *)

Section CreationClaims.
Context `{DatetimeLib}.






(** C4 (amended).  A due date is required at creation: a request whose
    due date is absent, null or empty is answered with the 400 validation
    error, whatever its title and recurrence flag, and the store is
    unchanged. *)
Theorem due_date_required uuid4 now data db :
  truthy (dget data "due_date") = false ->
  create_task uuid4 now data db
  = (Json (error_body "Title and due_date are required") 400, db).
Proof.
  intros Hd. unfold create_task. rewrite parse_date_falsy by done.
  simpl. by rewrite orb_true_r.
Qed.

End CreationClaims.

(** ** Rows under UPDATE and DELETE *)

Section Rows.
Context {A : Type} (key : A -> pyval).

Lemma pk_eq_true a b : pk_eq a b = true -> exists n, a = PInt n /\ b = PInt n.
Proof.
  destruct a, b; try discriminate. simpl. intros ->%Z.eqb_eq. eauto.
Qed.

Lemma pk_eq_refl n : pk_eq (PInt n) (PInt n) = true.
Proof. simpl. apply Z.eqb_refl. Qed.

Lemma find_key n l a :
  List.find (fun x => pk_eq (key x) (PInt n)) l = Some a ->
  In a l /\ key a = PInt n.
Proof.
  intros Hf. destruct (find_some _ _ Hf) as [Hin Hk]. split; [done|].
  by destruct (pk_eq_true _ _ Hk) as (m & -> & [= ->]).
Qed.

(** The updated row is the one a later lookup by the same key finds. *)
Lemma find_map_update n l a a' :
  List.find (fun x => pk_eq (key x) (PInt n)) l = Some a ->
  key a' = key a ->
  List.find (fun x => pk_eq (key x) (PInt n))
    (map (fun x => if pk_eq (key x) (key a') then a' else x) l) = Some a'.
Proof.
  intros Hf Hk. destruct (find_key _ _ _ Hf) as [_ Ha].
  rewrite Hk, Ha. rewrite Ha in Hk.
  induction l as [|x l IH]; simpl in *; [done|].
  destruct (pk_eq (key x) (PInt n)) eqn:Hx; simpl.
  - by rewrite Hk, pk_eq_refl.
  - rewrite Hx. by apply IH.
Qed.

(** Lookups by another key are not affected. *)
Lemma find_map_update_other n m l a' :
  key a' = PInt n -> m <> n ->
  List.find (fun x => pk_eq (key x) (PInt m))
    (map (fun x => if pk_eq (key x) (key a') then a' else x) l)
  = List.find (fun x => pk_eq (key x) (PInt m)) l.
Proof.
  intros Hk Hm. rewrite Hk.
  induction l as [|x l IH]; simpl; [done|].
  destruct (pk_eq (key x) (PInt n)) eqn:Hx.
  - destruct (pk_eq_true _ _ Hx) as (k & Hkx & [= Hkn]). subst k.
    rewrite Hk, Hkx. simpl.
    replace (n =? m) with false by (symmetry; apply Z.eqb_neq; lia). done.
  - by rewrite IH.
Qed.

Lemma map_key_update l a' :
  map key (map (fun x => if pk_eq (key x) (key a') then a' else x) l)
  = map key l.
Proof.
  rewrite map_map. apply map_ext. intros x.
  destruct (pk_eq (key x) (key a')) eqn:Hx; [|done].
  destruct (pk_eq_true _ _ Hx) as (k & -> & ->). done.
Qed.

(** With unique keys, a row has the key of [a] exactly when it is [a]. *)
Lemma unique_key l a x :
  NoDup (map key l) -> In a l -> In x l -> key x = key a -> x = a.
Proof.
  induction l as [|y l IH]; simpl; [done|].
  intros [Hy Hnd]%NoDup_cons [<-|Ha] [<-|Hx] Hk; try done.
  - exfalso. apply Hy. rewrite <- Hk. apply list_elem_of_In. by apply in_map.
  - exfalso. apply Hy. rewrite Hk. apply list_elem_of_In. by apply in_map.
  - by apply IH.
Qed.

End Rows.

(** ** Claims about task update *)

Section UpdateTask.
Context `{DatetimeLib}.

(** The two outcomes of [update_task] on an existing task. *)
Lemma update_task_run task_id data db task :
  find_task task_id db = Some task ->
  (dget_or data "title" (Task.title task) = PNone
   /\ update_task task_id data db = (ServerError IntegrityError, db))
  \/ (dget_or data "title" (Task.title task) <> PNone
      /\ update_task task_id data db
         = (jsonify (Task.to_dict (updated_task data task)) 200,
            set_tasks
              (map (fun t => if pk_eq (Task.id t) (Task.id task)
                             then updated_task data task else t) (tasks db))
              db)).
Proof.
  intros Hf. unfold update_task. rewrite Hf.
  fold (updated_task data task).
  unfold update_task_row, Task.not_null_ok. simpl.
  destruct (dget_or data "title" (Task.title task)); simpl; eauto.
Qed.

(** C8.  On an existing task, [update_task] leaves the identifier, due
    date, recurrence flag, cadence, group identity, start and end
    instants and creation instant as they were, whether or not the update
    commits; no other task, event or journal entry changes. *)
Theorem update_task_frame task_id data db task :
  find_task task_id db = Some task ->
  exists task',
    find_task task_id (snd (update_task task_id data db)) = Some task'
    /\ Task.id task' = Task.id task
    /\ Task.due_date task' = Task.due_date task
    /\ Task.is_recurring task' = Task.is_recurring task
    /\ Task.recurrence_type task' = Task.recurrence_type task
    /\ Task.recurrence_group_id task' = Task.recurrence_group_id task
    /\ Task.start_time task' = Task.start_time task
    /\ Task.end_time task' = Task.end_time task
    /\ Task.created_at task' = Task.created_at task
    /\ (forall other, other <> task_id ->
          find_task other (snd (update_task task_id data db))
          = find_task other db)
    /\ events (snd (update_task task_id data db)) = events db
    /\ journal (snd (update_task task_id data db)) = journal db.
Proof.
  intros Hf.
  destruct (update_task_run task_id data db task Hf) as [[_ ->]|[_ ->]]; simpl.
  - exists task. by repeat split.
  - exists (updated_task data task).
    destruct (find_key Task.id _ _ _ Hf) as [_ Hid].
    split.
    { unfold find_task. simpl.
      by apply (find_map_update Task.id task_id (tasks db) task
                  (updated_task data task)). }
    repeat split; try done.
    intros other Hne. unfold find_task. simpl.
    by apply (find_map_update_other Task.id task_id other (tasks db)
                (updated_task data task)).
Qed.


End UpdateTask.

(** ** Claims about event update *)

Section UpdateEvent.
Context `{DatetimeLib}.


End UpdateEvent.

(** ** Claims about validation *)

Section Validation.
Context `{DatetimeLib}.


End Validation.

(** ** The invariant of reachable stores *)

Lemma truthy_or_default v : truthy (or_default (PBool false) v) = truthy v.
Proof. by destruct v. Qed.

Section Invariant.
Context `{DatetimeLib}.

Lemma add_instances_shape o td cfg D range : forall session session',
  Task.due_date o = PDate D ->
  add_instances o td cfg range session = Ok session' ->
  exists ds,
    session' = session ++ map (fun d => Task.make (<["due_date" := PDate d]> td)) ds.
Proof.
  induction range as [|i range IH]; intros session session' HD; simpl.
  - intros [= <-]. exists []. simpl. by rewrite app_nil_r.
  - rewrite HD. simpl. destruct (date_add_days D (delta cfg * i)) as [d|];
      simpl; [|done].
    intros (ds & ->)%IH; [|done]. exists (d :: ds).
    by rewrite <- app_assoc.
Qed.

(** What [_create_recurring_tasks] can add for a template with a due
    date. *)
Lemma create_recurring_shape o D session :
  Task.due_date o = PDate D ->
  _create_recurring_tasks o [] = Ok session ->
  session = []
  \/ (truthy (Task.is_recurring o) = true
      /\ exists st en ds, session = map (fun d => sibling_of o st en (PDate d)) ds).
Proof.
  intros HD. unfold _create_recurring_tasks.
  destruct (truthy (Task.is_recurring o)) eqn:Hrec; simpl; [|intros [= <-]; by left].
  destruct (negb (truthy (Task.recurrence_type o))); simpl; [intros [= <-]; by left|].
  destruct (Task.to_dict o) as [d|] eqn:Hd; simpl; [|done].
  destruct (sibling_kwargs o d Hd) as (st & en & _ & _ & Hmk).
  destruct (recurrence_periods_get _) as [[cfg|]|]; simpl;
    [|intros [= <-]; by left|done].
  intros (ds & ->)%(add_instances_shape _ _ _ D); [|done].
  right. split; [done|]. exists st, en, ds. simpl.
  apply map_ext. intros x. apply Hmk.
Qed.

Lemma template_ok uuid4 now n data D st en :
  truthy (dget data "title") = true ->
  task_ok (task_row now (PInt n) (new_task_of uuid4 data (PDate D) st en)).
Proof.
  intros Ht. split; simpl.
  - eauto.
  - by apply truthy_not_none.
  - eauto.
  - destruct (truthy (dget_or data "is_recurring" (PBool false))); [|by left].
    right. eexists. split; [done|]. apply uuid_str_nonempty.
  - rewrite truthy_or_default.
    by destruct (truthy (dget_or data "is_recurring" (PBool false))).
Qed.

Lemma sibling_ok o now n st en d :
  task_ok o -> truthy (Task.is_recurring o) = true ->
  task_ok (task_row now (PInt n) (sibling_of o st en (PDate d))).
Proof.
  intros [Hid Ht Hdue Hg Hf] Hrec. split; simpl.
  - eauto.
  - done.
  - eauto.
  - done.
  - by rewrite truthy_or_default.
Qed.

(** Keys handed out by a flush are consecutive from the counter. *)
Lemma rows_from_keys now l : forall k pk,
  Forall (fun t => exists n, Task.id t = PInt n /\ pk <= n < pk + Z.of_nat (length l))
         (rows_from now k pk l)
  /\ NoDup (map Task.id (rows_from now k pk l)).
Proof.
  induction l as [|o l IH]; intros k pk; simpl.
  - split; constructor.
  - destruct (IH (S k) (pk + 1)) as [Hall Hnd]. split.
    + constructor; [exists pk; split; [done|lia]|].
      eapply Forall_impl; [exact Hall|]. simpl.
      intros t (n & Hn & Hb). exists n. split; [done|lia].
    + constructor; [|done].
      intros (t & Hid & Hin)%list_elem_of_fmap.
      rewrite Forall_forall in Hall.
      destruct (Hall t Hin) as (n & Hn & Hb).
      rewrite Hn in Hid. injection Hid as ->. lia.
Qed.

Lemma rows_from_length now l : forall k pk,
  length (rows_from now k pk l) = length l.
Proof. induction l as [|o l IH]; intros k pk; simpl; [done|by rewrite IH]. Qed.

Lemma rows_from_ok now o st en ds : forall k pk,
  task_ok o -> truthy (Task.is_recurring o) = true ->
  Forall task_ok
    (rows_from now k pk (map (fun d => sibling_of o st en (PDate d)) ds)).
Proof.
  induction ds as [|d ds IH]; intros k pk Ho Hrec; simpl; constructor.
  - by apply sibling_ok.
  - by apply IH.
Qed.

(** Appending rows with keys from the counter upward keeps the
    invariant. *)
Lemma db_ok_append db (new : list Task.t) ev jo es js :
  db_ok db ->
  Forall task_ok new ->
  NoDup (map Task.id new) ->
  Forall (fun t => exists n, Task.id t = PInt n
                   /\ task_seq db <= n < task_seq db + Z.of_nat (length new)) new ->
  db_ok (mkDB (tasks db ++ new) ev jo (task_seq db + Z.of_nat (length new)) es js).
Proof.
  intros [Hrows Hkeys Hseq] Hnew Hnd Hrange. split; simpl.
  - by apply Forall_app.
  - rewrite map_app. apply NoDup_app. split; [done|]. split; [|done].
    intros v (t & -> & Ht)%list_elem_of_fmap (t' & Hid & Ht')%list_elem_of_fmap.
    rewrite Forall_forall in Hseq, Hrange.
    destruct (Hseq t Ht) as (n & Hn & Hlt).
    destruct (Hrange t' Ht') as (n' & Hn' & Hge).
    rewrite Hn, Hn' in Hid. injection Hid as ->. lia.
  - apply Forall_app. split.
    + eapply Forall_impl; [exact Hseq|]. intros t (n & Hn & Hlt).
      exists n. simpl. split; [done|lia].
    + eapply Forall_impl; [exact Hrange|]. intros t (n & Hn & Hb).
      exists n. simpl. split; [done|lia].
Qed.

(** Every outcome of [create_task]: the store is unchanged, or it gains
    the template row followed by the rows of the pending instances. *)
Lemma create_task_effect uuid4 now data db :
  snd (create_task uuid4 now data db) = db
  \/ exists D st en pending,
      let template :=
        task_row (now O) (PInt (task_seq db))
          (new_task_of uuid4 data (PDate D) st en) in
      truthy (dget data "title") = true
      /\ (pending = []
          \/ (truthy (Task.is_recurring template) = true
              /\ exists st' en' ds,
                  pending = map (fun d => sibling_of template st' en' (PDate d)) ds))
      /\ snd (create_task uuid4 now data db)
         = mkDB (tasks db ++ template :: rows_from now 1 (task_seq db + 1) pending)
                (events db) (journal db)
                (task_seq db + 1 + Z.of_nat (length pending))
                (event_seq db) (journal_seq db).
Proof.
  destruct (parse_date (dget data "due_date")) as [due|e] eqn:HD.
  2:{ left. unfold create_task. by rewrite HD. }
  destruct (parse_date_shape _ _ HD) as [-> | [D ->]].
  { left. unfold create_task. rewrite HD. simpl. by rewrite orb_true_r. }
  destruct (truthy (dget data "title")) eqn:Ht.
  2:{ left. unfold create_task. rewrite HD, Ht. done. }
  destruct (parse_datetime (dget data "start_time")) as [st|e] eqn:Hst.
  2:{ left. unfold create_task. rewrite HD, Ht, Hst. done. }
  destruct (parse_datetime (dget data "end_time")) as [en|e] eqn:Hen.
  2:{ left. unfold create_task. rewrite HD, Ht, Hst, Hen. done. }
  rewrite (create_task_valid uuid4 now data db D st en) by done.
  set (template := task_row (now O) (PInt (task_seq db))
                     (new_task_of uuid4 data (PDate D) st en)).
  destruct (_create_recurring_tasks template []) as [pending|e] eqn:Hs;
    cbn [rbind]; [|by left].
  assert (Hshape := create_recurring_shape template D pending eq_refl Hs).
  rewrite flush_tasks_fresh.
  - right. exists D, st, en, pending. cbv zeta. fold template.
    split; [done|]. split; [done|]. simpl. rewrite <- app_assoc. done.
  - destruct Hshape as [-> | (_ & st' & en' & ds & ->)]; [constructor|].
    apply Forall_forall. intros o (d & -> & _)%list_elem_of_fmap.
    split; [done|]. simpl. by apply truthy_not_none.
Qed.

Lemma create_task_db_ok uuid4 now data db :
  db_ok db -> db_ok (snd (create_task uuid4 now data db)).
Proof.
  intros Hok.
  destruct (create_task_effect uuid4 now data db)
    as [-> | (D & st & en & pending & Ht & Hshape & ->)]; [done|].
  set (template := task_row (now O) (PInt (task_seq db))
                     (new_task_of uuid4 data (PDate D) st en)) in *.
  assert (Htok : task_ok template) by by apply template_ok.
  destruct (rows_from_keys now pending 1 (task_seq db + 1)) as [Hkeys Hnd].
  set (new := template :: rows_from now 1 (task_seq db + 1) pending).
  assert (Hlen : Z.of_nat (length new) = 1 + Z.of_nat (length pending)).
  { unfold new. simpl. rewrite rows_from_length. lia. }
  rewrite <- Z.add_assoc, <- Hlen.
  apply db_ok_append; [done| | |].
  - constructor; [done|].
    destruct Hshape as [-> | (Hrec & st' & en' & ds & ->)]; [constructor|].
    by apply rows_from_ok.
  - unfold new. simpl. constructor; [|done].
    intros (t & Hid & Hin)%list_elem_of_fmap.
    rewrite Forall_forall in Hkeys.
    destruct (Hkeys t Hin) as (n & Hn & Hb).
    simpl in Hid. rewrite Hn in Hid. injection Hid as Hid. lia.
  - rewrite Hlen. constructor.
    + exists (task_seq db). split; [done|lia].
    + eapply Forall_impl; [exact Hkeys|]. simpl.
      intros t (n & Hn & Hb). exists n. split; [done|lia].
Qed.

Lemma update_task_db_ok task_id data db :
  db_ok db -> db_ok (snd (update_task task_id data db)).
Proof.
  intros Hok. destruct (find_task task_id db) as [task|] eqn:Hf.
  2:{ unfold update_task. by rewrite Hf. }
  destruct (update_task_run task_id data db task Hf) as [[_ ->]|[Hne ->]];
    [done|].
  destruct Hok as [Hrows Hkeys Hseq].
  destruct (find_key Task.id _ _ _ Hf) as [Hin Hid].
  rewrite Forall_forall in Hrows.
  assert (Hnew : task_ok (updated_task data task)).
  { destruct (Hrows task) as [? ? ? ? ?]; [by apply list_elem_of_In|].
    by split. }
  split; simpl.
  - apply Forall_forall. intros t (x & -> & Hx)%list_elem_of_fmap.
    destruct (pk_eq _ _); [done|by apply Hrows].
  - pose proof (map_key_update Task.id (tasks db) (updated_task data task))
      as Hmap.
    simpl in Hmap. by rewrite Hmap.
  - apply Forall_forall. intros t (x & -> & Hx)%list_elem_of_fmap.
    rewrite Forall_forall in Hseq.
    destruct (pk_eq _ _); [|by apply Hseq].
    destruct (Hseq task) as (n & Hn & Hlt); [by apply list_elem_of_In|].
    by exists n.
Qed.

Lemma filter_db_ok (keep : Task.t -> bool) db :
  db_ok db -> db_ok (set_tasks (List.filter keep (tasks db)) db).
Proof.
  intros [Hrows Hkeys Hseq]. split; simpl.
  - apply Forall_forall. intros t [Ht _]%list_elem_of_In%filter_In.
    rewrite Forall_forall in Hrows. by apply Hrows, list_elem_of_In.
  - clear Hrows Hseq. induction (tasks db) as [|x l IH]; simpl; [constructor|].
    apply NoDup_cons in Hkeys as [Hx Hl].
    destruct (keep x); simpl; [|by apply IH].
    constructor; [|by apply IH].
    intros (t & Hid & [Ht _]%list_elem_of_In%filter_In)%list_elem_of_fmap.
    apply Hx. rewrite Hid. apply list_elem_of_fmap.
    exists t. split; [done|by apply list_elem_of_In].
  - apply Forall_forall. intros t [Ht _]%list_elem_of_In%filter_In.
    rewrite Forall_forall in Hseq. by apply Hseq, list_elem_of_In.
Qed.

Lemma delete_task_db_ok task_id apply_to db :
  db_ok db -> db_ok (snd (delete_task task_id apply_to db)).
Proof.
  intros Hok. unfold delete_task.
  destruct (find_task task_id db) as [task|]; [|done].
  destruct (_ && _); simpl; by apply filter_db_ok.
Qed.

(** The view functions of events and journal entries do not touch the
    task table. *)
Lemma db_ok_same_tasks db db' :
  tasks db' = tasks db -> task_seq db' = task_seq db -> db_ok db -> db_ok db'.
Proof.
  intros Ht Hs [Hrows Hkeys Hseq]. split; rewrite Ht; try done.
  eapply Forall_impl; [exact Hseq|]. intros t (n & Hn & Hlt).
  exists n. by rewrite Hs.
Qed.

Lemma create_event_tasks now data db :
  tasks (snd (create_event now data db)) = tasks db
  /\ task_seq (snd (create_event now data db)) = task_seq db.
Proof.
  unfold create_event. destruct (_ || _); [done|].
  destruct (parse_datetime (dget data "start_time")); simpl; [|done].
  destruct (parse_datetime (dget data "end_time")); simpl; [|done].
  unfold insert_event. by destruct (negb _).
Qed.

Lemma update_event_tasks event_id data db :
  tasks (snd (update_event event_id data db)) = tasks db
  /\ task_seq (snd (update_event event_id data db)) = task_seq db.
Proof.
  unfold update_event. destruct (find_event event_id db); [|done].
  destruct (parse_datetime (dget data "start_time")); simpl; [|done].
  destruct (if dmem "end_time" data then _ else _); simpl; [|done].
  unfold update_event_row. by destruct (negb _).
Qed.

Lemma create_journal_entry_tasks now data db :
  tasks (snd (create_journal_entry now data db)) = tasks db
  /\ task_seq (snd (create_journal_entry now data db)) = task_seq db.
Proof.
  unfold create_journal_entry. destruct (_ || _); [done|].
  destruct (parse_datetime (dget data "timestamp")); simpl; [|done].
  unfold insert_entry. by destruct (negb _).
Qed.

Lemma update_journal_entry_tasks entry_id data db :
  tasks (snd (update_journal_entry entry_id data db)) = tasks db
  /\ task_seq (snd (update_journal_entry entry_id data db)) = task_seq db.
Proof.
  unfold update_journal_entry. destruct (find_entry entry_id db); [|done].
  destruct (parse_datetime (dget data "timestamp")); simpl; [|done].
  unfold update_entry_row. by destruct (negb _).
Qed.

(** Every reachable store satisfies the invariant. *)
Lemma reachable_db_ok db : reachable db -> db_ok db.
Proof.
  induction 1 as [ | | | | now data db _ IH | event_id data db _ IH
                   | event_id db _ IH | now data db _ IH
                   | entry_id data db _ IH | entry_id db _ IH ].
  - split; simpl; constructor.
  - by apply create_task_db_ok.
  - by apply update_task_db_ok.
  - by apply delete_task_db_ok.
  - destruct (create_event_tasks now data db) as [Ht Hs].
    by apply (db_ok_same_tasks db _ Ht Hs).
  - destruct (update_event_tasks event_id data db) as [Ht Hs].
    by apply (db_ok_same_tasks db _ Ht Hs).
  - unfold delete_event. destruct (find_event event_id db); [|done].
    by apply (db_ok_same_tasks db).
  - destruct (create_journal_entry_tasks now data db) as [Ht Hs].
    by apply (db_ok_same_tasks db _ Ht Hs).
  - destruct (update_journal_entry_tasks entry_id data db) as [Ht Hs].
    by apply (db_ok_same_tasks db _ Ht Hs).
  - unfold delete_journal_entry. destruct (find_entry entry_id db); [|done].
    by apply (db_ok_same_tasks db).
Qed.

End Invariant.

(** ** Claims about deletion and grouping *)

Lemma sql_eq_str a s : sql_eq a (PStr s) = true <-> a = PStr s.
Proof.
  destruct a; simpl; try (split; [discriminate|done]).
  rewrite String.eqb_eq. split; [by intros ->|by intros [= ->]].
Qed.

Lemma sql_ge_date_le a b : sql_ge a b = true <-> date_le b a.
Proof.
  split.
  - destruct a, b; try discriminate. simpl. intros Hle%Z.leb_le.
    eexists _, _. eauto.
  - intros (x & y & -> & -> & Hle). simpl. by apply Z.leb_le.
Qed.

Section Deletion.
Context `{DatetimeLib}.

(** C2.  In a reachable store, deleting an existing task [T] with scope
    [all_future] answers 204 and: when [T] has no group identity, removes
    exactly [T]; otherwise removes exactly the rows of [T]'s group whose
    due date is not before [T]'s, [T] among them, and keeps every row
    with an earlier due date, and every row of another group, as it
    was.  Events and journal entries are untouched. *)
Theorem delete_series_from_here db task_id T :
  reachable db ->
  find_task task_id db = Some T ->
  exists db',
    delete_task task_id (Some "all_future") db = (NoContent, db')
    /\ events db' = events db /\ journal db' = journal db
    /\ (forall t, In t (tasks db) -> exists d, Task.due_date t = PDate d)
    /\ (Task.recurrence_group_id T = PNone ->
        forall t, In t (tasks db') <-> In t (tasks db) /\ t <> T)
    /\ (Task.recurrence_group_id T <> PNone ->
        (forall t,
           In t (tasks db') <->
           In t (tasks db)
           /\ ~ (Task.recurrence_group_id t = Task.recurrence_group_id T
                 /\ date_le (Task.due_date T) (Task.due_date t)))
        /\ ~ In T (tasks db')
        /\ (forall t x y,
              In t (tasks db) ->
              Task.due_date t = PDate x -> Task.due_date T = PDate y -> x < y ->
              In t (tasks db'))).
Proof.
  intros Hreach Hf.
  destruct (reachable_db_ok db Hreach) as [Hrows Hkeys _].
  destruct (find_key Task.id _ _ _ Hf) as [HinT HidT].
  rewrite Forall_forall in Hrows.
  destruct (Hrows T) as [_ _ [dT HdT] Hgroup _]; [by apply list_elem_of_In|].
  assert (Hdue : forall t, In t (tasks db) -> exists d, Task.due_date t = PDate d).
  { intros t Hin. by destruct (Hrows t) as [_ _ ? _ _]; [apply list_elem_of_In|]. }
  unfold delete_task. rewrite Hf. simpl.
  destruct Hgroup as [Hg | (s & Hg & Hs)]; rewrite Hg; simpl.
  - eexists. split; [done|]. do 3 (split; [done|]). split; [|done].
    intros _ t. simpl. rewrite filter_In. split.
    + intros [Hin Hk]. split; [done|]. intros ->.
      rewrite HidT, pk_eq_refl in Hk. done.
    + intros [Hin Hne]. split; [done|].
      destruct (pk_eq (Task.id t) (Task.id T)) eqn:Hk; [|done].
      exfalso. apply Hne. apply (unique_key Task.id (tasks db)); try done.
      by destruct (pk_eq_true _ _ Hk) as (n & -> & ->).
  - replace (negb (String.eqb s "")) with true
      by (by destruct (String.eqb_spec s "")).
    eexists. split; [done|]. do 3 (split; [done|]). split; [done|].
    intros _.
    assert (Hiff : forall t,
      In t (tasks (delete_series_from T db)) <->
      In t (tasks db)
      /\ ~ (Task.recurrence_group_id t = PStr s
            /\ date_le (Task.due_date T) (Task.due_date t))).
    { intros t. simpl. rewrite filter_In. unfold in_series_from.
      rewrite Hg, negb_true_iff, andb_false_iff.
      rewrite <- !not_true_iff_false, sql_eq_str, sql_ge_date_le.
      split; intros [Hin Hno]; (split; [done|]); [tauto|].
      destruct (sql_eq (Task.recurrence_group_id t) (PStr s)) eqn:He.
      - apply sql_eq_str in He. right. tauto.
      - left. rewrite <- sql_eq_str. congruence. }
    split; [exact Hiff|]. split.
    + intros [_ Hno]%Hiff. apply Hno. split; [done|].
      exists dT, dT. rewrite HdT. repeat split; lia.
    + intros t x y Hin Hx Hy Hlt. apply Hiff. split; [done|].
      intros [_ (a & b & Ha & Hb & Hle)].
      rewrite Hy in Ha. rewrite Hx in Hb. injection Ha as <-.
      injection Hb as <-. lia.
Qed.

End Deletion.

Section Grouping.
Context `{DatetimeLib}.



End Grouping.

(** ** The claims on concrete requests *)



(** C4 as stated fails: a non-recurring request with a title and no due
    date is answered 400 and nothing is stored. *)
Lemma due_date_optional_counterexample :
  truthy (dget req_no_due "title") = true
  /\ dget req_no_due "is_recurring" = PBool false
  /\ req_no_due !! "due_date" = None
  /\ create_task uuid0 now0 req_no_due empty_db
     = (Json (error_body "Title and due_date are required") 400, empty_db)
  /\ ~ exists body db' t,
        create_task uuid0 now0 req_no_due empty_db = (Json body 201, db')
        /\ In t (tasks db') /\ Task.due_date t = PNone.
Proof.
  assert (Hrun : create_task uuid0 now0 req_no_due empty_db
                 = (Json (error_body "Title and due_date are required") 400,
                    empty_db))
    by (vm_compute; reflexivity).
  do 3 (split; [vm_compute; reflexivity|]). split; [exact Hrun|].
  intros (body & db' & t & Heq & _). rewrite Hrun in Heq. discriminate.
Qed.

Lemma due_date_required_witness :
  truthy (dget req_no_due "due_date") = false
  /\ create_task uuid0 now0 req_no_due empty_db
     = (Json (error_body "Title and due_date are required") 400, empty_db).
Proof.
  split; [reflexivity|]. apply due_date_required. reflexivity.
Defined.



Lemma db_series_reachable : reachable db_series.
Proof. apply reach_create_task, reach_empty. Qed.

Lemma delete_series_from_here_witness :
  exists db',
    delete_task 6 (Some "all_future") db_series = (NoContent, db')
    /\ events db' = events db_series.
Proof.
  destruct (find_task 6 db_series) as [T|] eqn:Hf;
    [|vm_compute in Hf; discriminate].
  destruct (delete_series_from_here db_series 6 T db_series_reachable Hf)
    as (db' & Hrun & Hev & _).
  exists db'. split; assumption.
Defined.

(** A daily series due on D, D+1, ..., D+90: deleting the instance due
    on D+5 with scope [all_future] removes the 86 rows due on D+5 or
    later and leaves those due on D, ..., D+4; deleting it alone leaves
    the other 90. *)
Example delete_daily_series_from_sixth :
  let db := snd (create_task uuid0 now0 req_daily empty_db) in
  length (tasks db) = 91%nat
  /\ Task.due_date <$> find_task 6 db = Some (PDate (738886 + 5))
  /\ map Task.due_date (tasks (snd (delete_task 6 (Some "all_future") db)))
     = map PDate [738886; 738887; 738888; 738889; 738890]
  /\ length (tasks (snd (delete_task 6 None db))) = 90%nat.
Proof. vm_compute. repeat split; reflexivity. Qed.





Lemma update_task_frame_witness :
  exists task',
    find_task 1 (snd (update_task 1 upd_description_null db_one_task))
    = Some task'
    /\ Task.due_date task' = PDate 738886.
Proof.
  destruct (find_task 1 db_one_task) as [task|] eqn:Hf;
    [|vm_compute in Hf; discriminate].
  destruct (update_task_frame 1 upd_description_null db_one_task task Hf)
    as (task' & Hf' & _ & Hdue & _).
  exists task'. split; [exact Hf'|]. rewrite Hdue.
  vm_compute in Hf. injection Hf as <-. reflexivity.
Defined.




(** ** Resources are independent *)

Section Frames.
Context `{DatetimeLib}.

Lemma create_task_frame uuid4 now data db :
  same_but_tasks db (snd (create_task uuid4 now data db)).
Proof.
  destruct (create_task_effect uuid4 now data db)
    as [-> | (D & st & en & pending & _ & _ & ->)]; by repeat split.
Qed.

Lemma update_task_frame_others task_id data db :
  same_but_tasks db (snd (update_task task_id data db)).
Proof.
  unfold update_task. destruct (find_task task_id db); [|by repeat split].
  unfold update_task_row. destruct (negb _); by repeat split.
Qed.

Lemma delete_task_frame task_id apply_to db :
  same_but_tasks db (snd (delete_task task_id apply_to db)).
Proof.
  unfold delete_task. destruct (find_task task_id db); [|by repeat split].
  destruct (_ && _); by repeat split.
Qed.

Lemma create_event_frame now data db :
  same_but_events db (snd (create_event now data db)).
Proof.
  unfold create_event. destruct (_ || _); [by repeat split|].
  destruct (parse_datetime (dget data "start_time")); simpl; [|by repeat split].
  destruct (parse_datetime (dget data "end_time")); simpl; [|by repeat split].
  unfold insert_event. destruct (negb _); by repeat split.
Qed.

Lemma update_event_frame event_id data db :
  same_but_events db (snd (update_event event_id data db)).
Proof.
  unfold update_event. destruct (find_event event_id db); [|by repeat split].
  destruct (parse_datetime (dget data "start_time")); simpl; [|by repeat split].
  destruct (if dmem "end_time" data then _ else _); simpl; [|by repeat split].
  unfold update_event_row. destruct (negb _); by repeat split.
Qed.

Lemma delete_event_frame event_id db :
  same_but_events db (snd (delete_event event_id db)).
Proof.
  unfold delete_event. destruct (find_event event_id db); by repeat split.
Qed.

Lemma create_journal_entry_frame now data db :
  same_but_journal db (snd (create_journal_entry now data db)).
Proof.
  unfold create_journal_entry. destruct (_ || _); [by repeat split|].
  destruct (parse_datetime (dget data "timestamp")); simpl; [|by repeat split].
  unfold insert_entry. destruct (negb _); by repeat split.
Qed.

Lemma update_journal_entry_frame entry_id data db :
  same_but_journal db (snd (update_journal_entry entry_id data db)).
Proof.
  unfold update_journal_entry.
  destruct (find_entry entry_id db); [|by repeat split].
  destruct (parse_datetime (dget data "timestamp")); simpl; [|by repeat split].
  unfold update_entry_row. destruct (negb _); by repeat split.
Qed.

Lemma delete_journal_entry_frame entry_id db :
  same_but_journal db (snd (delete_journal_entry entry_id db)).
Proof.
  unfold delete_journal_entry.
  destruct (find_entry entry_id db); by repeat split.
Qed.

(** X1.  No view function reaches into another resource: the task
    endpoints leave events, journal entries and their counters as they
    were, the event endpoints leave tasks and journal entries, and the
    journal endpoints leave tasks and events, whatever the request and
    whether or not it succeeds. *)
Theorem resources_are_independent uuid4 now data db n apply_to :
  same_but_tasks db (snd (create_task uuid4 now data db))
  /\ same_but_tasks db (snd (update_task n data db))
  /\ same_but_tasks db (snd (delete_task n apply_to db))
  /\ same_but_events db (snd (create_event now data db))
  /\ same_but_events db (snd (update_event n data db))
  /\ same_but_events db (snd (delete_event n db))
  /\ same_but_journal db (snd (create_journal_entry now data db))
  /\ same_but_journal db (snd (update_journal_entry n data db))
  /\ same_but_journal db (snd (delete_journal_entry n db)).
Proof.
  split; [apply create_task_frame|].
  split; [apply update_task_frame_others|].
  split; [apply delete_task_frame|].
  split; [apply create_event_frame|].
  split; [apply update_event_frame|].
  split; [apply delete_event_frame|].
  split; [apply create_journal_entry_frame|].
  split; [apply update_journal_entry_frame|].
  apply delete_journal_entry_frame.
Qed.

End Frames.

(** ** Events and journal entries in reachable stores *)

Section Keys.
Context {A : Type} (key : A -> pyval).

Lemma NoDup_key_filter keep l :
  NoDup (map key l) -> NoDup (map key (List.filter keep l)).
Proof.
  induction l as [|x l IH]; simpl; [done|].
  intros [Hx Hl]%NoDup_cons. destruct (keep x); simpl; [|by apply IH].
  constructor; [|by apply IH].
  intros (t & Hid & [Ht _]%list_elem_of_In%filter_In)%list_elem_of_fmap.
  apply Hx. rewrite Hid. apply list_elem_of_fmap.
  exists t. split; [done|by apply list_elem_of_In].
Qed.

Lemma NoDup_key_snoc seq l row :
  Forall (fun x => exists n, key x = PInt n /\ n < seq) l ->
  key row = PInt seq ->
  NoDup (map key l) -> NoDup (map key (l ++ [row])).
Proof.
  intros Hlt Hrow Hnd. rewrite map_app. apply NoDup_app.
  split; [done|]. split; [|simpl; apply NoDup_singleton].
  intros v (t & -> & Ht)%list_elem_of_fmap. simpl. rewrite Hrow.
  intros Hin%list_elem_of_singleton.
  rewrite Forall_forall in Hlt. destruct (Hlt t Ht) as (n & Hn & Hb).
  rewrite Hn in Hin. injection Hin as Hin. lia.
Qed.

Lemma below_key_snoc seq l row :
  Forall (fun x => exists n, key x = PInt n /\ n < seq) l ->
  key row = PInt seq ->
  Forall (fun x => exists n, key x = PInt n /\ n < seq + 1) (l ++ [row]).
Proof.
  intros Hlt Hrow. apply Forall_app. split.
  - eapply Forall_impl; [exact Hlt|]. intros x (n & Hn & Hb).
    exists n. split; [done|lia].
  - constructor; [|constructor]. exists seq. split; [done|lia].
Qed.

(** After a delete by key, a lookup by that key finds nothing. *)
Lemma find_after_delete n l a :
  key a = PInt n ->
  List.find (fun x => pk_eq (key x) (PInt n))
    (List.filter (fun x => negb (pk_eq (key x) (key a))) l) = None.
Proof.
  intros Ha. rewrite Ha.
  induction l as [|x l IH]; simpl; [done|].
  destruct (pk_eq (key x) (PInt n)) eqn:Hx; simpl; [done|].
  by rewrite Hx.
Qed.

(** With unique keys, a delete by key removes exactly the row. *)
Lemma filter_key_exact l a :
  NoDup (map key l) -> In a l -> (exists n, key a = PInt n) ->
  forall x, In x (List.filter (fun y => negb (pk_eq (key y) (key a))) l)
            <-> In x l /\ x <> a.
Proof.
  intros Hnd Ha [n Hn] x. rewrite filter_In. split.
  - intros [Hin Hk]. split; [done|]. intros ->.
    rewrite Hn, pk_eq_refl in Hk. done.
  - intros [Hin Hne]. split; [done|].
    destruct (pk_eq (key x) (key a)) eqn:Hk; [|done].
    exfalso. apply Hne. apply (unique_key key l); try done.
    by destruct (pk_eq_true _ _ Hk) as (m & -> & ->).
Qed.

End Keys.

Section ParsedValues.
Context `{DatetimeLib}.

Lemma parse_datetime_truthy v r :
  parse_datetime v = Ok r -> truthy r = true -> exists i, r = PDateTime i.
Proof. intros [-> | [i ->]]%parse_datetime_shape; [done|eauto]. Qed.

Lemma parse_datetime_of_truthy v r :
  truthy v = true -> parse_datetime v = Ok r -> exists i, r = PDateTime i.
Proof.
  unfold parse_datetime. intros ->. simpl. destruct v; try done.
  destruct (fromisoformat _); [intros [= <-]; eauto|done].
Qed.

Lemma parse_date_of_truthy v r :
  truthy v = true -> parse_date v = Ok r -> exists d, r = PDate d.
Proof.
  unfold parse_date. intros ->. simpl. destruct v; try done.
  destruct (fromisoformat _); [intros [= <-]; eauto|].
  destruct (strptime_ymd _); [intros [= <-]; eauto|done].
Qed.

End ParsedValues.

Section EventInvariant.
Context `{DatetimeLib}.

Lemma create_event_events_ok now data db :
  events_ok db -> events_ok (snd (create_event now data db)).
Proof.
  intros [Hrows Hkeys Hseq]. unfold create_event.
  destruct (truthy (dget data "title")) eqn:Ht; simpl; [|done].
  destruct (truthy (dget data "start_time")) eqn:Hs; simpl; [|done].
  destruct (parse_datetime (dget data "start_time")) as [st|] eqn:Hst;
    simpl; [|done].
  destruct (parse_datetime (dget data "end_time")) as [en|] eqn:Hen;
    simpl; [|done].
  destruct (parse_datetime_of_truthy _ _ Hs Hst) as [i ->].
  unfold insert_event, Event.not_null_ok. simpl.
  destruct (dget data "title") eqn:Htitle; try done; simpl.
  all: split; simpl;
    [ apply Forall_app; split; [done|]; constructor; [|constructor];
      split; simpl; eauto; try done;
      destruct (parse_datetime_shape _ _ Hen) as [-> | [j ->]]; eauto
    | by apply (NoDup_key_snoc Event.id (event_seq db))
    | by apply (below_key_snoc Event.id (event_seq db)) ].
Qed.

Lemma update_event_events_ok event_id data db :
  events_ok db -> events_ok (snd (update_event event_id data db)).
Proof.
  intros Hok. unfold update_event.
  destruct (find_event event_id db) as [event|] eqn:Hf; [|done].
  destruct (find_key Event.id _ _ _ Hf) as [Hin Hid].
  destruct Hok as [Hrows Hkeys Hseq].
  rewrite Forall_forall in Hrows.
  destruct (Hrows event) as [_ _ [i0 Hst0] Hen0 Hcr0];
    [by apply list_elem_of_In|].
  destruct (parse_datetime (dget data "start_time")) as [ns|] eqn:Hns;
    simpl; [|by split; [apply Forall_forall| |]].
  destruct (if dmem "end_time" data then _ else _) as [en|] eqn:Hen;
    simpl; [|by split; [apply Forall_forall| |]].
  unfold update_event_row.
  match goal with |- context [Event.not_null_ok ?e] => set (event' := e) end.
  destruct (Event.not_null_ok event') eqn:Hnn; simpl;
    [|by split; [apply Forall_forall| |]].
  assert (Hnew : event_ok event').
  { split; unfold event'; simpl.
    - eauto.
    - unfold Event.not_null_ok, event' in Hnn. simpl in Hnn.
      by destruct (dget_or data "title" (Event.title event)).
    - destruct (truthy ns) eqn:Htr; [|eauto].
      by apply (parse_datetime_truthy (dget data "start_time")).
    - destruct (dmem "end_time" data).
      + destruct (parse_datetime_shape _ _ Hen) as [-> | [j ->]]; eauto.
      + by injection Hen as <-.
    - done. }
  split; simpl.
  - apply Forall_forall. intros x (y & -> & Hy)%list_elem_of_fmap.
    destruct (pk_eq _ _); [done|by apply Hrows].
  - pose proof (map_key_update Event.id (events db) event') as Hmap.
    simpl in Hmap. by rewrite Hmap.
  - apply Forall_forall. intros x (y & -> & Hy)%list_elem_of_fmap.
    rewrite Forall_forall in Hseq.
    destruct (pk_eq _ _); [|by apply Hseq].
    destruct (Hseq event) as (n & Hn & Hlt); [by apply list_elem_of_In|].
    by exists n.
Qed.

Lemma delete_event_events_ok event_id db :
  events_ok db -> events_ok (snd (delete_event event_id db)).
Proof.
  intros [Hrows Hkeys Hseq]. unfold delete_event.
  destruct (find_event event_id db) as [event|]; [|done].
  split; simpl.
  - apply Forall_forall. intros x [Hx _]%list_elem_of_In%filter_In.
    rewrite Forall_forall in Hrows. by apply Hrows, list_elem_of_In.
  - by apply NoDup_key_filter.
  - apply Forall_forall. intros x [Hx _]%list_elem_of_In%filter_In.
    rewrite Forall_forall in Hseq. by apply Hseq, list_elem_of_In.
Qed.

Lemma events_ok_same db db' :
  events db' = events db -> event_seq db' = event_seq db ->
  events_ok db -> events_ok db'.
Proof.
  intros He Hs [Hrows Hkeys Hseq]. split; rewrite He; try done.
  by rewrite Hs.
Qed.

Lemma reachable_events_ok db : reachable db -> events_ok db.
Proof.
  induction 1 as [ | u now data db _ IH | task_id data db _ IH
                   | task_id apply_to db _ IH | | |
                   | now data db _ IH | entry_id data db _ IH
                   | entry_id db _ IH ].
  - split; simpl; constructor.
  - destruct (create_task_frame u now data db) as (He & _ & Hs & _).
    by apply (events_ok_same db).
  - destruct (update_task_frame_others task_id data db) as (He & _ & Hs & _).
    by apply (events_ok_same db).
  - destruct (delete_task_frame task_id apply_to db) as (He & _ & Hs & _).
    by apply (events_ok_same db).
  - by apply create_event_events_ok.
  - by apply update_event_events_ok.
  - by apply delete_event_events_ok.
  - destruct (create_journal_entry_frame now data db) as (_ & He & _ & Hs).
    by apply (events_ok_same db).
  - destruct (update_journal_entry_frame entry_id data db) as (_ & He & _ & Hs).
    by apply (events_ok_same db).
  - destruct (delete_journal_entry_frame entry_id db) as (_ & He & _ & Hs).
    by apply (events_ok_same db).
Qed.

End EventInvariant.

Section JournalInvariant.
Context `{DatetimeLib}.

Lemma create_journal_entry_journal_ok now data db :
  journal_ok db -> journal_ok (snd (create_journal_entry now data db)).
Proof.
  intros [Hrows Hkeys Hseq]. unfold create_journal_entry.
  destruct (truthy (dget data "entry_type")) eqn:Ht; simpl; [|done].
  destruct (truthy (dget data "content")) eqn:Hc; simpl; [|done].
  destruct (parse_datetime (dget data "timestamp")) as [ts|] eqn:Hts;
    simpl; [|done].
  assert (Hstamp : exists i,
    or_default (PDateTime (now 1%nat))
      (if truthy ts then ts else PDateTime (now O)) = PDateTime i).
  { destruct (truthy ts) eqn:Htr; [|simpl; eauto].
    destruct (parse_datetime_truthy _ _ Hts Htr) as [i ->]. simpl. eauto. }
  destruct Hstamp as [i Hi].
  unfold insert_entry, JournalEntry.not_null_ok. simpl. rewrite Hi.
  destruct (dget data "entry_type") eqn:Htype; try done; simpl.
  all: split; simpl;
    [ apply Forall_app; split; [done|]; constructor; [|constructor];
      split; simpl; eauto
    | by apply (NoDup_key_snoc JournalEntry.id (journal_seq db))
    | by apply (below_key_snoc JournalEntry.id (journal_seq db)) ].
Qed.

Lemma update_journal_entry_journal_ok entry_id data db :
  journal_ok db -> journal_ok (snd (update_journal_entry entry_id data db)).
Proof.
  intros Hok. unfold update_journal_entry.
  destruct (find_entry entry_id db) as [entry|] eqn:Hf; [|done].
  destruct (find_key JournalEntry.id _ _ _ Hf) as [Hin Hid].
  destruct Hok as [Hrows Hkeys Hseq].
  rewrite Forall_forall in Hrows.
  destruct (Hrows entry) as [_ Hty0 [i0 Hts0]]; [by apply list_elem_of_In|].
  destruct (parse_datetime (dget data "timestamp")) as [ns|] eqn:Hns;
    simpl; [|by split; [apply Forall_forall| |]].
  unfold update_entry_row.
  match goal with |- context [JournalEntry.not_null_ok ?e] =>
    set (entry' := e) end.
  destruct (JournalEntry.not_null_ok entry') eqn:Hnn; simpl;
    [|by split; [apply Forall_forall| |]].
  assert (Hnew : entry_ok entry').
  { split; unfold entry'; simpl.
    - eauto.
    - done.
    - destruct (truthy ns) eqn:Htr; [|eauto].
      by apply (parse_datetime_truthy (dget data "timestamp")). }
  split; simpl.
  - apply Forall_forall. intros x (y & -> & Hy)%list_elem_of_fmap.
    destruct (pk_eq _ _); [done|by apply Hrows].
  - pose proof (map_key_update JournalEntry.id (journal db) entry') as Hmap.
    simpl in Hmap. by rewrite Hmap.
  - apply Forall_forall. intros x (y & -> & Hy)%list_elem_of_fmap.
    rewrite Forall_forall in Hseq.
    destruct (pk_eq _ _); [|by apply Hseq].
    destruct (Hseq entry) as (n & Hn & Hlt); [by apply list_elem_of_In|].
    by exists n.
Qed.

Lemma delete_journal_entry_journal_ok entry_id db :
  journal_ok db -> journal_ok (snd (delete_journal_entry entry_id db)).
Proof.
  intros [Hrows Hkeys Hseq]. unfold delete_journal_entry.
  destruct (find_entry entry_id db) as [entry|]; [|done].
  split; simpl.
  - apply Forall_forall. intros x [Hx _]%list_elem_of_In%filter_In.
    rewrite Forall_forall in Hrows. by apply Hrows, list_elem_of_In.
  - by apply NoDup_key_filter.
  - apply Forall_forall. intros x [Hx _]%list_elem_of_In%filter_In.
    rewrite Forall_forall in Hseq. by apply Hseq, list_elem_of_In.
Qed.

Lemma journal_ok_same db db' :
  journal db' = journal db -> journal_seq db' = journal_seq db ->
  journal_ok db -> journal_ok db'.
Proof.
  intros He Hs [Hrows Hkeys Hseq]. split; rewrite He; try done.
  by rewrite Hs.
Qed.

Lemma reachable_journal_ok db : reachable db -> journal_ok db.
Proof.
  induction 1 as [ | u now data db _ IH | task_id data db _ IH
                   | task_id apply_to db _ IH
                   | now data db _ IH | event_id data db _ IH
                   | event_id db _ IH | | | ].
  - split; simpl; constructor.
  - destruct (create_task_frame u now data db) as (_ & He & _ & Hs).
    by apply (journal_ok_same db).
  - destruct (update_task_frame_others task_id data db) as (_ & He & _ & Hs).
    by apply (journal_ok_same db).
  - destruct (delete_task_frame task_id apply_to db) as (_ & He & _ & Hs).
    by apply (journal_ok_same db).
  - destruct (create_event_frame now data db) as (_ & He & _ & Hs).
    by apply (journal_ok_same db).
  - destruct (update_event_frame event_id data db) as (_ & He & _ & Hs).
    by apply (journal_ok_same db).
  - destruct (delete_event_frame event_id db) as (_ & He & _ & Hs).
    by apply (journal_ok_same db).
  - by apply create_journal_entry_journal_ok.
  - by apply update_journal_entry_journal_ok.
  - by apply delete_journal_entry_journal_ok.
Qed.

End JournalInvariant.

(** ** Further properties: invariants of reachable stores *)

Lemma collect_ok {A B} (f : A -> result B) (l : list A) :
  (forall x, In x l -> exists y, f x = Ok y) ->
  exists ys, collect f l = Ok ys /\ Forall2 (fun x y => f x = Ok y) l ys.
Proof.
  induction l as [|x l IH]; intros Hall; simpl.
  - exists []. split; [done|constructor].
  - destruct (Hall x) as [y Hy]; [by left|].
    destruct IH as (ys & Hys & Hf2); [intros z Hz; apply Hall; by right|].
    exists (y :: ys). rewrite Hy, Hys. split; [done|by constructor].
Qed.

Lemma collect_app {A B} (f : A -> result B) (l1 l2 : list A) ys1 ys2 :
  collect f l1 = Ok ys1 -> collect f l2 = Ok ys2 ->
  collect f (l1 ++ l2) = Ok (ys1 ++ ys2).
Proof.
  revert ys1. induction l1 as [|x l1 IH]; intros ys1; simpl.
  - by intros [= <-].
  - destruct (f x) as [y|]; simpl; [|done].
    destruct (collect f l1) as [ys|]; simpl; [|done].
    intros [= <-] H2. by rewrite (IH ys eq_refl H2).
Qed.

Section ReachableInvariants.
Context `{DatetimeLib}.

(** X2.  In every store the API can reach, task identifiers are
    pairwise distinct integers below the counter, and every task has a
    non-null title, a calendar date as due date, a group identity that is
    null or a non-empty string, and a non-null group identity exactly
    when its recurrence flag is true. *)
Theorem reachable_tasks_invariant db :
  reachable db ->
  NoDup (map Task.id (tasks db))
  /\ forall t, In t (tasks db) ->
       (exists n, Task.id t = PInt n /\ n < task_seq db)
       /\ Task.title t <> PNone
       /\ (exists d, Task.due_date t = PDate d)
       /\ (Task.recurrence_group_id t = PNone
           \/ exists s, Task.recurrence_group_id t = PStr s /\ s <> "")
       /\ (Task.recurrence_group_id t <> PNone
           <-> truthy (Task.is_recurring t) = true).
Proof.
  intros [Hrows Hkeys Hseq]%reachable_db_ok. split; [done|].
  intros t Ht%list_elem_of_In.
  rewrite Forall_forall in Hrows, Hseq.
  destruct (Hrows t Ht) as [? ? ? ? ?]. by split; [apply Hseq|].
Qed.

(** X3.  In every reachable store, event identifiers are pairwise
    distinct integers below the counter, and every event has a non-null
    title, an instant as start time (no update ever nulls it), an end
    time that is null or an instant, and an instant as creation time. *)
Theorem reachable_events_invariant db :
  reachable db ->
  NoDup (map Event.id (events db))
  /\ forall e, In e (events db) ->
       (exists n, Event.id e = PInt n /\ n < event_seq db)
       /\ Event.title e <> PNone
       /\ (exists i, Event.start_time e = PDateTime i)
       /\ (Event.end_time e = PNone \/ exists i, Event.end_time e = PDateTime i)
       /\ (exists i, Event.created_at e = PDateTime i).
Proof.
  intros [Hrows Hkeys Hseq]%reachable_events_ok. split; [done|].
  intros e He%list_elem_of_In.
  rewrite Forall_forall in Hrows, Hseq.
  destruct (Hrows e He) as [? ? ? ? ?]. by split; [apply Hseq|].
Qed.

Lemma event_to_dict_ok e : event_ok e -> exists d, Event.to_dict e = Ok d.
Proof.
  intros [_ _ [i Hs] He [c Hc]]. unfold Event.to_dict.
  rewrite Hs, Hc. simpl.
  destruct He as [-> | [j ->]]; simpl; eauto.
Qed.

(** X4.  GET /events never fails on a reachable store: it yields one
    dictionary per stored event, in table order, each the [to_dict] of
    its row; in particular [start_time.isoformat()] never meets a null
    start time. *)
Theorem get_events_total db :
  reachable db ->
  exists l,
    get_events db = Ok l
    /\ length l = length (events db)
    /\ forall k e, events db !! k = Some e ->
         exists d, l !! k = Some d /\ Event.to_dict e = Ok d
                   /\ d !! "id" = Some (Event.id e).
Proof.
  intros [Hrows _ _]%reachable_events_ok. rewrite Forall_forall in Hrows.
  destruct (collect_ok Event.to_dict (events db)) as (l & Hl & Hf2).
  { intros e He. by apply event_to_dict_ok, Hrows, list_elem_of_In. }
  exists l. split; [done|]. split; [symmetry; by eapply Forall2_length|].
  intros k e Hk.
  destruct (Forall2_lookup_l _ _ _ _ _ Hf2 Hk) as (d & Hd & Hto).
  exists d. do 2 (split; [done|]).
  revert Hto. unfold Event.to_dict.
  destruct (iso _); simpl; [|done].
  destruct (iso_or_none (Event.end_time e)); simpl; [|done].
  destruct (iso_or_none (Event.created_at e)); simpl; [|done].
  intros [= <-]. by simplify_map_eq.
Qed.

(** X5.  In every reachable store, journal identifiers are pairwise
    distinct integers below the counter, every entry has a non-empty
    entry type and an instant as timestamp, and its [to_dict] succeeds. *)
Theorem reachable_journal_invariant db :
  reachable db ->
  NoDup (map JournalEntry.id (journal db))
  /\ forall e, In e (journal db) ->
       (exists n, JournalEntry.id e = PInt n /\ n < journal_seq db)
       /\ truthy (JournalEntry.entry_type e) = true
       /\ (exists i, JournalEntry.timestamp e = PDateTime i)
       /\ (exists d, JournalEntry.to_dict e = Ok d).
Proof.
  intros [Hrows Hkeys Hseq]%reachable_journal_ok. split; [done|].
  intros e He%list_elem_of_In.
  rewrite Forall_forall in Hrows, Hseq.
  destruct (Hrows e He) as [? ? [i Hi]].
  split; [by apply Hseq|]. do 2 (split; [eauto|]).
  unfold JournalEntry.to_dict. rewrite Hi. simpl. eauto.
Qed.

End ReachableInvariants.

(** ** Further properties: the parsers *)

Section Parsers.
Context `{DatetimeLib}.

(** X6.  [parse_date] and [parse_datetime] return [None] exactly on a
    falsy argument (null, empty string, false, 0, empty array or
    object), so the guards [not due_date] and [if new_start_time] test
    for a missing value; any other result is a date, resp. an instant. *)
Theorem parsers_none_iff_falsy v :
  (parse_date v = Ok PNone <-> truthy v = false)
  /\ (parse_datetime v = Ok PNone <-> truthy v = false)
  /\ (forall r, parse_date v = Ok r -> truthy r = true ->
                exists d, r = PDate d)
  /\ (forall r, parse_datetime v = Ok r -> truthy r = true ->
                exists i, r = PDateTime i).
Proof.
  split; [|split; [|split]].
  - split; [|apply parse_date_falsy].
    intros Hp. destruct (truthy v) eqn:Hv; [|done].
    by destruct (parse_date_of_truthy v PNone Hv Hp).
  - split; [|apply parse_datetime_falsy].
    intros Hp. destruct (truthy v) eqn:Hv; [|done].
    by destruct (parse_datetime_of_truthy v PNone Hv Hp).
  - intros r [-> | [d ->]]%parse_date_shape; [done|eauto].
  - intros r. apply parse_datetime_truthy.
Qed.

(** X7.  The two parsers agree: whatever [parse_datetime] accepts,
    [parse_date] accepts too, and returns the calendar date of that
    instant ([None] for [None]). *)
Theorem parse_date_agrees_with_parse_datetime v r :
  parse_datetime v = Ok r ->
  parse_date v
  = Ok (match r with PDateTime i => PDate (dt_date i) | _ => PNone end).
Proof.
  unfold parse_datetime, parse_date.
  destruct (negb (truthy v)); [by intros [= <-]|].
  destruct v; try done.
  destruct (fromisoformat _); [by intros [= <-]|done].
Qed.

(** X8.  A date or instant field given as a truthy JSON value that is
    not a string has no [replace] method: the [AttributeError] leaves
    the view and the store is unchanged.  This holds for the due date of
    a new task, the start time of a new or updated event, and the
    timestamp of a new journal entry. *)
Theorem non_string_instant_raises uuid4 now data db :
  (truthy_non_string (dget data "due_date") = true ->
   create_task uuid4 now data db = (ServerError AttributeError, db))
  /\ (truthy (dget data "title") = true ->
      truthy_non_string (dget data "start_time") = true ->
      create_event now data db = (ServerError AttributeError, db))
  /\ (forall event_id event,
        find_event event_id db = Some event ->
        truthy_non_string (dget data "start_time") = true ->
        update_event event_id data db = (ServerError AttributeError, db))
  /\ (truthy (dget data "entry_type") = true ->
      truthy (dget data "content") = true ->
      truthy_non_string (dget data "timestamp") = true ->
      create_journal_entry now data db = (ServerError AttributeError, db)).
Proof.
  assert (Hd : forall v, truthy_non_string v = true ->
                         parse_date v = Raise AttributeError).
  { intros v [Hv Hk]%andb_prop. unfold parse_date. rewrite Hv.
    by destruct v. }
  assert (Hdt : forall v, truthy_non_string v = true ->
                          parse_datetime v = Raise AttributeError
                          /\ truthy v = true).
  { intros v [Hv Hk]%andb_prop. unfold parse_datetime. rewrite Hv.
    by destruct v. }
  split; [|split; [|split]].
  - intros Hv. unfold create_task. by rewrite (Hd _ Hv).
  - intros Ht Hv. destruct (Hdt _ Hv) as [Hp Htr].
    unfold create_event. by rewrite Ht, Htr, Hp.
  - intros event_id event Hf Hv. destruct (Hdt _ Hv) as [Hp _].
    unfold update_event. by rewrite Hf, Hp.
  - intros Ht Hc Hv. destruct (Hdt _ Hv) as [Hp _].
    unfold create_journal_entry. by rewrite Ht, Hc, Hp.
Qed.

End Parsers.

(** ** Further properties: recurrence expansion *)

Section ExpansionMore.
Context `{DatetimeLib}.

Lemma add_instances_objects o td cfg range : forall session session',
  add_instances o td cfg range session = Ok session' ->
  exists vs,
    length vs = length range
    /\ session' = session ++ map (fun v => Task.make (<["due_date" := v]> td)) vs.
Proof.
  induction range as [|i range IH]; intros session session'; simpl.
  - intros [= <-]. exists []. simpl. by rewrite app_nil_r.
  - destruct (py_add_days (Task.due_date o) (delta cfg * i)) as [v|];
      simpl; [|done].
    intros (vs & Hlen & ->)%IH. exists (v :: vs). simpl.
    split; [by rewrite Hlen|by rewrite <- app_assoc].
Qed.

(** The number of objects [_create_recurring_tasks] adds. *)
Lemma instances_count o session session' :
  _create_recurring_tasks o session = Ok session' ->
  length session' = length session
  \/ length session' = (length session + 12)%nat
  \/ length session' = (length session + 90)%nat.
Proof.
  unfold _create_recurring_tasks.
  destruct (negb _ || negb _); [intros [= <-]; by left|].
  destruct (Task.to_dict o) as [d|]; simpl; [|done].
  destruct (recurrence_periods_get (Task.recurrence_type o))
    as [[cfg|]|] eqn:Hcfg; simpl; [|intros [= <-]; by left|done].
  intros (vs & Hlen & ->)%add_instances_objects. right.
  rewrite length_app, length_map, Hlen, py_range_length.
  destruct (Task.recurrence_type o) as [| | |cad| | | |]; try done.
  simpl in Hcfg. injection Hcfg as Hcfg.
  destruct (recurrence_periods_known _ _ Hcfg) as [[_ ->]|[_ ->]];
    simpl; [by right|by left].
Qed.

(** X9.  Whenever [_create_recurring_tasks] returns, the session holds
    what it held before, followed by the new objects; every new object
    has no identifier, completion flag, tracked duration or creation
    instant of its own (the store fills them in), has the template's
    title, description, recurrence flag, cadence and group identity, and
    has as start and end what the template's dictionary holds: the ISO
    text of the template's instant, or [None]. *)
Theorem instances_added o session session' :
  _create_recurring_tasks o session = Ok session' ->
  exists added,
    session' = session ++ added
    /\ (added = [] \/ length added = 12%nat \/ length added = 90%nat)
    /\ forall s, In s added ->
         Task.id s = PNone
         /\ Task.is_completed s = PNone
         /\ Task.time_tracked_seconds s = PNone
         /\ Task.created_at s = PNone
         /\ Task.title s = Task.title o
         /\ Task.description s = Task.description o
         /\ Task.is_recurring s = Task.is_recurring o
         /\ Task.recurrence_type s = Task.recurrence_type o
         /\ Task.recurrence_group_id s = Task.recurrence_group_id o
         /\ iso_or_none (Task.start_time o) = Ok (Task.start_time s)
         /\ iso_or_none (Task.end_time o) = Ok (Task.end_time s).
Proof.
  unfold _create_recurring_tasks.
  destruct (negb _ || negb _).
  { intros [= <-]. exists []. split; [by rewrite app_nil_r|]. split; [by left|].
    by intros s []. }
  destruct (Task.to_dict o) as [d|] eqn:Hd; simpl; [|done].
  destruct (sibling_kwargs o d Hd) as (st & en & Hst & Hen & Hmk).
  destruct (recurrence_periods_get (Task.recurrence_type o))
    as [[cfg|]|] eqn:Hcfg; simpl; [| |done].
  2:{ intros [= <-]. exists []. split; [by rewrite app_nil_r|].
      split; [by left|]. by intros s []. }
  intros (vs & Hlen & ->)%add_instances_objects.
  eexists. split; [done|]. split.
  - right. rewrite length_map, Hlen, py_range_length.
    destruct (Task.recurrence_type o) as [| | |cad| | | |]; try done.
    simpl in Hcfg. injection Hcfg as Hcfg.
    destruct (recurrence_periods_known _ _ Hcfg) as [[_ ->]|[_ ->]];
      simpl; [by right|by left].
  - intros s (v & <- & _)%in_map_iff. rewrite Hmk. by repeat split.
Qed.

(** Every outcome of [create_task], with its response. *)
Lemma create_task_outcome uuid4 now data db :
  (snd (create_task uuid4 now data db) = db
   /\ forall body, fst (create_task uuid4 now data db) <> Json body 201)
  \/ exists D st en pending body,
      let template :=
        task_row (now O) (PInt (task_seq db))
          (new_task_of uuid4 data (PDate D) st en) in
      truthy (dget data "title") = true
      /\ parse_date (dget data "due_date") = Ok (PDate D)
      /\ parse_datetime (dget data "start_time") = Ok st
      /\ parse_datetime (dget data "end_time") = Ok en
      /\ _create_recurring_tasks template [] = Ok pending
      /\ Task.to_dict template = Ok body
      /\ create_task uuid4 now data db
         = (Json body 201,
            mkDB (tasks db ++ template :: rows_from now 1 (task_seq db + 1) pending)
                 (events db) (journal db)
                 (task_seq db + 1 + Z.of_nat (length pending))
                 (event_seq db) (journal_seq db)).
Proof.
  destruct (parse_date (dget data "due_date")) as [due|e] eqn:HD.
  2:{ left. unfold create_task. by rewrite HD. }
  destruct (parse_date_shape _ _ HD) as [-> | [D ->]].
  { left. unfold create_task. rewrite HD. simpl. by rewrite orb_true_r. }
  destruct (truthy (dget data "title")) eqn:Ht.
  2:{ left. unfold create_task. rewrite HD, Ht. done. }
  destruct (parse_datetime (dget data "start_time")) as [st|e] eqn:Hst.
  2:{ left. unfold create_task. rewrite HD, Ht, Hst. done. }
  destruct (parse_datetime (dget data "end_time")) as [en|e] eqn:Hen.
  2:{ left. unfold create_task. rewrite HD, Ht, Hst, Hen. done. }
  rewrite (create_task_valid uuid4 now data db D st en) by done.
  destruct (template_to_dict uuid4 (now O) data (PInt (task_seq db)) D _ _ st en
              Hst Hen) as [body Hbody].
  set (template := task_row (now O) (PInt (task_seq db))
                     (new_task_of uuid4 data (PDate D) st en)) in *.
  destruct (_create_recurring_tasks template []) as [pending|e] eqn:Hs;
    cbn [rbind]; [|by left].
  assert (Hshape := create_recurring_shape template D pending eq_refl Hs).
  rewrite flush_tasks_fresh.
  - right. exists D, st, en, pending, body. cbv zeta. fold template.
    do 6 (split; [done|]). rewrite Hbody. simpl.
    rewrite <- app_assoc. done.
  - destruct Hshape as [-> | (_ & st' & en' & ds & ->)]; [constructor|].
    apply Forall_forall. intros o (d & -> & _)%list_elem_of_fmap.
    split; [done|]. simpl. by apply truthy_not_none.
Qed.

(** X10.  Task creation is all or nothing: whatever the request, the
    store is left exactly as it was, or the response is 201 and the task
    table has gained 1, 13 or 91 rows (a template alone, or with its 12
    weekly or 90 daily siblings); a partial series is never stored and a
    response other than 201 never stores anything. *)
Theorem create_task_all_or_nothing uuid4 now data db :
  snd (create_task uuid4 now data db) = db
  \/ exists body added,
      fst (create_task uuid4 now data db) = Json body 201
      /\ tasks (snd (create_task uuid4 now data db)) = tasks db ++ added
      /\ (length added = 1%nat \/ length added = 13%nat
          \/ length added = 91%nat).
Proof.
  destruct (create_task_outcome uuid4 now data db)
    as [[Hsame _] | (D & st & en & pending & body & _ & _ & _ & _
                     & Hpend & Hbody & ->)];
    [by left|].
  right. eexists _, _. split; [done|]. split; [done|].
  simpl. rewrite rows_from_length.
  destruct (instances_count _ _ _ Hpend) as [-> | [-> | ->]]; auto.
Qed.



End ExpansionMore.

(** ** Further properties: creation followed by lookup *)

Lemma find_app_skip {A} (p : A -> bool) l1 l2 :
  (forall x, In x l1 -> p x = false) ->
  List.find p (l1 ++ l2) = List.find p l2.
Proof.
  induction l1 as [|x l1 IH]; intros Hall; simpl; [done|].
  rewrite (Hall x) by (by left). apply IH. intros y Hy. apply Hall. by right.
Qed.

Lemma find_none_below {A} (key : A -> pyval) seq l :
  Forall (fun x => exists n, key x = PInt n /\ n < seq) l ->
  forall x, In x l -> pk_eq (key x) (PInt seq) = false.
Proof.
  intros Hall x Hx%list_elem_of_In. rewrite Forall_forall in Hall.
  destruct (Hall x Hx) as (n & -> & Hlt). simpl. apply Z.eqb_neq. lia.
Qed.

Section Lookup.
Context `{DatetimeLib}.

Lemma task_to_dict_id t d :
  Task.to_dict t = Ok d -> d !! "id" = Some (Task.id t).
Proof.
  unfold Task.to_dict.
  destruct (iso_or_none (Task.due_date t)); simpl; [|done].
  destruct (iso_or_none (Task.start_time t)); simpl; [|done].
  destruct (iso_or_none (Task.end_time t)); simpl; [|done].
  destruct (iso_or_none (Task.created_at t)); simpl; [|done].
  intros [= <-]. by simplify_map_eq.
Qed.

(** X12.  On a reachable store, a 201 from [create_task] reports in its
    body the identifier under which the new task is stored: the
    identifier was not in use before, a lookup by it finds a row, and the
    body is the [to_dict] of that row. *)
Theorem create_task_reports_lookup_key uuid4 now data db body :
  reachable db ->
  fst (create_task uuid4 now data db) = Json body 201 ->
  exists n t,
    body !! "id" = Some (PInt n)
    /\ find_task n db = None
    /\ find_task n (snd (create_task uuid4 now data db)) = Some t
    /\ Task.to_dict t = Ok body.
Proof.
  intros [_ _ Hseq]%reachable_db_ok H201.
  destruct (create_task_outcome uuid4 now data db)
    as [[_ Hno] | (D & st & en & pending & body' & _ & _ & _ & _
                   & _ & Hbody & Hrun)];
    [by destruct (Hno body)|].
  rewrite Hrun in H201 |- *. simpl in H201. injection H201 as ->.
  pose proof (find_none_below Task.id (task_seq db) (tasks db) Hseq) as Hold.
  eexists (task_seq db), _. split; [|split; [|split; [|exact Hbody]]].
  - by rewrite (task_to_dict_id _ _ Hbody).
  - unfold find_task. destruct (List.find _ _) as [x|] eqn:Hf; [|done].
    destruct (find_some _ _ Hf) as [Hin Hk]. by rewrite (Hold x Hin) in Hk.
  - unfold find_task. cbn [snd tasks]. rewrite find_app_skip by done.
    cbn [List.find task_row Task.id]. by rewrite pk_eq_refl.
Qed.



End Lookup.

(** ** Further properties: updates *)

Lemma dget_or_idem (data : payload) k v :
  dget_or data k (dget_or data k v) = dget_or data k v.
Proof. unfold dget_or. by destruct (data !! k). Qed.

Lemma updated_task_idem data task :
  updated_task data (updated_task data task) = updated_task data task.
Proof. unfold updated_task. simpl. by rewrite !dget_or_idem. Qed.

Lemma map_update_idem {A} (key : A -> pyval) (a' : A) l :
  map (fun x => if pk_eq (key x) (key a') then a' else x)
      (map (fun x => if pk_eq (key x) (key a') then a' else x) l)
  = map (fun x => if pk_eq (key x) (key a') then a' else x) l.
Proof.
  rewrite map_map. apply map_ext. intros x.
  destruct (pk_eq (key x) (key a')) eqn:Hx; [|by rewrite Hx].
  destruct (pk_eq_true _ _ Hx) as (n & _ & ->). by rewrite pk_eq_refl.
Qed.

(** With unique keys, writing back the row a lookup found changes
    nothing. *)
Lemma map_update_same {A} (key : A -> pyval) (a : A) l :
  NoDup (map key l) -> In a l ->
  map (fun x => if pk_eq (key x) (key a) then a else x) l = l.
Proof.
  intros Hnd Ha. rewrite <- (map_id l) at 2. apply map_ext_in.
  intros x Hx. destruct (pk_eq (key x) (key a)) eqn:Hk; [|done].
  symmetry. apply (unique_key key l); try done.
  by destruct (pk_eq_true _ _ Hk) as (n & -> & ->).
Qed.

Section UpdateMore.
Context `{DatetimeLib}.


(** X16.  [update_task] is idempotent: sending the same payload for the
    same identifier a second time gives the same response and leaves the
    store as the first request left it. *)
Theorem update_task_idempotent task_id data db :
  update_task task_id data (snd (update_task task_id data db))
  = update_task task_id data db.
Proof.
  destruct (find_task task_id db) as [task|] eqn:Hf.
  2:{ unfold update_task at 2 3. rewrite Hf. simpl.
      unfold update_task. by rewrite Hf. }
  destruct (update_task_run task_id data db task Hf) as [[Hn Hrun]|[Hne Hrun]].
  { rewrite Hrun. simpl. exact Hrun. }
  rewrite Hrun. cbn [snd].
  set (db1 := set_tasks _ db).
  assert (Hf1 : find_task task_id db1 = Some (updated_task data task)).
  { unfold find_task, db1. simpl.
    by apply (find_map_update Task.id task_id (tasks db) task
                (updated_task data task)). }
  destruct (update_task_run task_id data db1 _ Hf1) as [[Hn1 _]|[_ ->]].
  { simpl in Hn1. rewrite dget_or_idem in Hn1. done. }
  rewrite updated_task_idem. f_equal.
  unfold db1, set_tasks. simpl. f_equal.
  apply (map_update_idem Task.id (updated_task data task)).
Qed.



End UpdateMore.

(** ** Further properties: deletion *)

Lemma filter_key_length {A} (key : A -> pyval) (a : A) l :
  NoDup (map key l) -> In a l -> (exists n, key a = PInt n) ->
  length l = S (length (List.filter (fun y => negb (pk_eq (key y) (key a))) l)).
Proof.
  intros Hnd Ha [n Hn]. rewrite Hn.
  induction l as [|x l IH]; simpl in *; [done|].
  apply NoDup_cons in Hnd as [Hx Hl].
  destruct Ha as [-> | Ha].
  - rewrite Hn, pk_eq_refl. simpl. f_equal.
    rewrite forallb_filter_id; [done|].
    apply forallb_forall. intros y Hy. apply negb_true_iff.
    destruct (pk_eq (key y) (PInt n)) eqn:Hk; [|done].
    exfalso. apply Hx. rewrite Hn.
    destruct (pk_eq_true _ _ Hk) as (m & Hy' & [= ->]).
    rewrite <- Hy'. apply list_elem_of_In. by apply in_map.
  - destruct (pk_eq (key x) (PInt n)) eqn:Hk; simpl.
    + exfalso. apply Hx.
      destruct (pk_eq_true _ _ Hk) as (m & -> & [= ->]).
      rewrite <- Hn. apply list_elem_of_In. by apply in_map.
    + f_equal. by apply IH.
Qed.

Section DeletionMore.
Context `{DatetimeLib}.

(** X19.  On a reachable store, deleting an existing task without the
    [all_future] scope removes exactly that task, also when it belongs to
    a series: every other row, its siblings included, stays as it was
    and the table is one row shorter. *)
Theorem delete_single_removes_only_target db task_id apply_to T :
  reachable db ->
  find_task task_id db = Some T ->
  apply_to <> Some "all_future" ->
  exists db',
    delete_task task_id apply_to db = (NoContent, db')
    /\ (forall t, In t (tasks db') <-> In t (tasks db) /\ t <> T)
    /\ length (tasks db) = S (length (tasks db')).
Proof.
  intros [Hrows Hkeys _]%reachable_db_ok Hf Hscope.
  destruct (find_key Task.id _ _ _ Hf) as [Hin Hid].
  unfold delete_task. rewrite Hf.
  assert (Hno : match apply_to with
                | Some s => String.eqb s "all_future"
                | None => false
                end = false).
  { destruct apply_to as [s|]; [|done].
    destruct (String.eqb_spec s "all_future"); [congruence|done]. }
  rewrite Hno. simpl. eexists. split; [done|]. simpl. split.
  - apply (filter_key_exact Task.id (tasks db) T); eauto.
  - apply (filter_key_length Task.id T (tasks db)); eauto.
Qed.

(** X20.  On a reachable store, once an existing task has been deleted,
    with either scope, a lookup by its identifier finds nothing: a second
    delete and any update of that identifier answer 404 and change
    nothing. *)
Theorem deleted_task_is_gone db task_id apply_to T :
  reachable db ->
  find_task task_id db = Some T ->
  let db' := snd (delete_task task_id apply_to db) in
  find_task task_id db' = None
  /\ (forall scope, delete_task task_id scope db' = (NotFound, db'))
  /\ (forall data, update_task task_id data db' = (NotFound, db')).
Proof.
  intros [Hrows Hkeys _]%reachable_db_ok Hf db'.
  destruct (find_key Task.id _ _ _ Hf) as [Hin Hid].
  rewrite Forall_forall in Hrows.
  destruct (Hrows T) as [_ _ [dT HdT] Hgroup _]; [by apply list_elem_of_In|].
  assert (Hgone : find_task task_id db' = None).
  { unfold db', delete_task. rewrite Hf.
    destruct (_ && truthy _) eqn:Hbranch; simpl.
    - unfold find_task. simpl.
      destruct (List.find _ _) as [x|] eqn:Hx; [|done]. exfalso.
      destruct (find_some _ _ Hx) as [[Hxin Hkeep]%filter_In Hk].
      assert (x = T) as ->.
      { apply (unique_key Task.id (tasks db)); try done.
        destruct (pk_eq_true _ _ Hk) as (n & -> & [= ->]). done. }
      apply andb_prop in Hbranch as [_ Htr].
      destruct Hgroup as [Hg | (s & Hg & Hs)]; [by rewrite Hg in Htr|].
      unfold in_series_from in Hkeep. rewrite Hg, HdT in Hkeep. simpl in Hkeep.
      by rewrite String.eqb_refl, Z.leb_refl in Hkeep.
    - unfold find_task. simpl.
      by apply (find_after_delete Task.id task_id (tasks db) T). }
  split; [done|]. split.
  - intros scope. unfold delete_task. by rewrite Hgone.
  - intros data. unfold update_task. by rewrite Hgone.
Qed.

(** X21.  On a reachable store, deleting an existing event or journal
    entry answers 204 and removes exactly that row; a later lookup by its
    identifier finds nothing. *)
Theorem delete_event_and_entry_exact db n :
  reachable db ->
  (forall e, find_event n db = Some e ->
     exists db',
       delete_event n db = (NoContent, db')
       /\ (forall x, In x (events db') <-> In x (events db) /\ x <> e)
       /\ find_event n db' = None)
  /\ (forall e, find_entry n db = Some e ->
       exists db',
         delete_journal_entry n db = (NoContent, db')
         /\ (forall x, In x (journal db') <-> In x (journal db) /\ x <> e)
         /\ find_entry n db' = None).
Proof.
  intros Hreach. split.
  - destruct (reachable_events_ok db Hreach) as [_ Hkeys _].
    intros e Hf. destruct (find_key Event.id _ _ _ Hf) as [Hin Hid].
    unfold delete_event. rewrite Hf. eexists. split; [done|]. simpl. split.
    + apply (filter_key_exact Event.id (events db) e); eauto.
    + by apply (find_after_delete Event.id n (events db) e).
  - destruct (reachable_journal_ok db Hreach) as [_ Hkeys _].
    intros e Hf. destruct (find_key JournalEntry.id _ _ _ Hf) as [Hin Hid].
    unfold delete_journal_entry. rewrite Hf. eexists. split; [done|].
    simpl. split.
    + apply (filter_key_exact JournalEntry.id (journal db) e); eauto.
    + by apply (find_after_delete JournalEntry.id n (journal db) e).
Qed.

End DeletionMore.

(** ** Further properties: operations composed *)



Section Composition.
Context `{DatetimeLib}.


End Composition.

Section ReadAfterWrite.
Context `{DatetimeLib}.

(** X23.  Listing after creation: when GET /events succeeds on a store
    and a creation request is then answered 201, the next GET /events
    yields the earlier list followed by the body of that response. *)
Theorem get_events_after_create now data db l body :
  get_events db = Ok l ->
  fst (create_event now data db) = Json body 201 ->
  get_events (snd (create_event now data db)) = Ok (l ++ [body]).
Proof.
  intros Hl. unfold create_event.
  destruct (_ || _); [simpl; intros [= _ ?]; done|].
  destruct (parse_datetime (dget data "start_time")) as [st|]; simpl; [|done].
  destruct (parse_datetime (dget data "end_time")) as [en|]; simpl; [|done].
  unfold insert_event. destruct (negb _); simpl; [done|].
  match goal with |- jsonify (Event.to_dict ?r) _ = _ -> _ => set (row := r) end.
  destruct (Event.to_dict row) as [d|] eqn:Hd; simpl; [|done].
  intros [= ->]. unfold get_events. simpl.
  apply collect_app; [done|]. simpl. by rewrite Hd.
Qed.

(** X24.  Listing after creation of a non-recurring task: when GET
    /tasks succeeds on a store and a request whose recurrence flag is
    false is then answered 201, the next GET /tasks yields the earlier
    list followed by the body of that response. *)
Theorem get_tasks_after_create uuid4 now data db l body :
  get_tasks db = Ok l ->
  truthy (dget_or data "is_recurring" (PBool false)) = false ->
  fst (create_task uuid4 now data db) = Json body 201 ->
  get_tasks (snd (create_task uuid4 now data db)) = Ok (l ++ [body]).
Proof.
  intros Hl Hrec H201.
  destruct (create_task_outcome uuid4 now data db)
    as [[_ Hno] | (D & st & en & pending & body' & _ & _ & _ & _
                   & Hpend & Hbody & Hrun)];
    [by destruct (Hno body)|].
  rewrite Hrun in H201 |- *. simpl in H201. injection H201 as ->.
  rewrite no_instances_not_recurring in Hpend.
  2:{ left. simpl. by rewrite truthy_or_default. }
  injection Hpend as <-.
  unfold get_tasks. cbn [snd tasks rows_from].
  apply collect_app; [done|]. cbn [collect]. by rewrite Hbody.
Qed.

(** X25.  [update_event] and [update_journal_entry] are idempotent:
    sending the same payload for the same identifier a second time gives
    the same response and leaves the store as the first request left
    it. *)
Theorem update_event_and_entry_idempotent n data db :
  update_event n data (snd (update_event n data db)) = update_event n data db
  /\ update_journal_entry n data (snd (update_journal_entry n data db))
     = update_journal_entry n data db.
Proof.
  split.
  - destruct (find_event n db) as [event|] eqn:Hf.
    2:{ unfold update_event at 2 3. rewrite Hf. simpl.
        unfold update_event. by rewrite Hf. }
    unfold update_event at 2 3. rewrite Hf.
    destruct (parse_datetime (dget data "start_time")) as [ns|e] eqn:Hns;
      cbn [rbind].
    2:{ cbn [snd]. unfold update_event. by rewrite Hf, Hns. }
    destruct (if dmem "end_time" data then _ else _) as [en|e] eqn:Hen;
      cbn [rbind].
    2:{ cbn [snd]. unfold update_event. by rewrite Hf, Hns, Hen. }
    unfold update_event_row.
    match goal with |- context [Event.not_null_ok ?e] => set (event' := e) end.
    destruct (Event.not_null_ok event') eqn:Hnn; cbn [negb rbind snd].
    2:{ unfold update_event. rewrite Hf, Hns. cbn [rbind]. rewrite Hen.
        cbn [rbind]. unfold update_event_row. fold event'. by rewrite Hnn. }
    set (db1 := set_events _ db).
    assert (Hf1 : find_event n db1 = Some event').
    { unfold find_event, db1. simpl.
      by apply (find_map_update Event.id n (events db) event event'). }
    assert (Hen1 : (if dmem "end_time" data
                    then parse_datetime (dget data "end_time")
                    else Ok (Event.end_time event')) = Ok en).
    { destruct (dmem "end_time" data); [done|]. simpl. done. }
    assert (Hsame : {|
        Event.id := Event.id event';
        Event.title := dget_or data "title" (Event.title event');
        Event.description :=
          dget_or data "description" (Event.description event');
        Event.start_time :=
          if truthy ns then ns else Event.start_time event';
        Event.end_time := en;
        Event.created_at := Event.created_at event' |} = event').
    { unfold event'. simpl. rewrite !dget_or_idem.
      by destruct (truthy ns). }
    unfold update_event. rewrite Hf1, Hns. cbn [rbind]. rewrite Hen1.
    cbn [rbind]. rewrite Hsame. unfold update_event_row. rewrite Hnn.
    cbn [negb rbind]. f_equal. unfold db1, set_events. simpl. f_equal.
    apply (map_update_idem Event.id event').
  - destruct (find_entry n db) as [entry|] eqn:Hf.
    2:{ unfold update_journal_entry at 2 3. rewrite Hf. simpl.
        unfold update_journal_entry. by rewrite Hf. }
    unfold update_journal_entry at 2 3. rewrite Hf.
    destruct (parse_datetime (dget data "timestamp")) as [ns|e] eqn:Hns;
      cbn [rbind].
    2:{ cbn [snd]. unfold update_journal_entry. by rewrite Hf, Hns. }
    unfold update_entry_row.
    match goal with |- context [JournalEntry.not_null_ok ?e] =>
      set (entry' := e) end.
    destruct (JournalEntry.not_null_ok entry') eqn:Hnn; cbn [negb rbind snd].
    2:{ unfold update_journal_entry. rewrite Hf, Hns. cbn [rbind].
        unfold update_entry_row. fold entry'. by rewrite Hnn. }
    set (db1 := set_journal _ db).
    assert (Hf1 : find_entry n db1 = Some entry').
    { unfold find_entry, db1. simpl.
      by apply (find_map_update JournalEntry.id n (journal db) entry entry'). }
    assert (Hsame : {|
        JournalEntry.id := JournalEntry.id entry';
        JournalEntry.entry_type := JournalEntry.entry_type entry';
        JournalEntry.content :=
          dget_or data "content" (JournalEntry.content entry');
        JournalEntry.timestamp :=
          if truthy ns then ns else JournalEntry.timestamp entry' |} = entry').
    { unfold entry'. simpl. rewrite !dget_or_idem.
      by destruct (truthy ns). }
    unfold update_journal_entry. rewrite Hf1, Hns. cbn [rbind].
    rewrite Hsame. unfold update_entry_row. rewrite Hnn.
    cbn [negb rbind]. f_equal. unfold db1, set_journal. simpl. f_equal.
    apply (map_update_idem JournalEntry.id entry').
Qed.

End ReadAfterWrite.

(** ** The further properties on concrete requests *)


Lemma db_one_event_reachable : reachable db_one_event.
Proof. apply reach_create_event, reach_empty. Qed.

Lemma db_one_entry_reachable : reachable db_one_entry.
Proof. apply reach_create_journal_entry, reach_empty. Qed.

Lemma reachable_tasks_invariant_witness :
  NoDup (map Task.id (tasks db_series)).
Proof.
  exact (proj1 (reachable_tasks_invariant db_series db_series_reachable)).
Defined.

Lemma reachable_events_invariant_witness :
  NoDup (map Event.id (events db_one_event)).
Proof.
  exact (proj1 (reachable_events_invariant db_one_event db_one_event_reachable)).
Defined.

Lemma get_events_total_witness :
  exists l, get_events db_one_event = Ok l /\ length l = 1%nat.
Proof.
  destruct (get_events_total db_one_event db_one_event_reachable)
    as (l & Hl & Hlen & _).
  exists l. split; [exact Hl|]. rewrite Hlen. reflexivity.
Defined.

Lemma reachable_journal_invariant_witness :
  NoDup (map JournalEntry.id (journal db_one_entry)).
Proof.
  exact (proj1 (reachable_journal_invariant db_one_entry
                  db_one_entry_reachable)).
Defined.

Lemma parsers_none_iff_falsy_witness :
  parse_date (PStr "") = Ok PNone /\ parse_datetime PNone = Ok PNone.
Proof.
  split.
  - apply (proj1 (parsers_none_iff_falsy (PStr ""))). reflexivity.
  - apply (proj1 (proj2 (parsers_none_iff_falsy PNone))). reflexivity.
Defined.

Lemma parse_date_agrees_witness :
  parse_datetime (PStr "2024-02-29T12:30:00Z")
  = Ok (PDateTime (mkDateTime 738945 45000 0 (Some 0)))
  /\ parse_date (PStr "2024-02-29T12:30:00Z") = Ok (PDate 738945).
Proof.
  split; [vm_compute; reflexivity|].
  apply (parse_date_agrees_with_parse_datetime (PStr "2024-02-29T12:30:00Z")
           (PDateTime (mkDateTime 738945 45000 0 (Some 0)))).
  vm_compute; reflexivity.
Defined.

Lemma non_string_instant_raises_witness :
  truthy_non_string (dget req_numeric_due "due_date") = true
  /\ create_task uuid0 now0 req_numeric_due empty_db
     = (ServerError AttributeError, empty_db).
Proof.
  split; [reflexivity|].
  apply (proj1 (non_string_instant_raises uuid0 now0 req_numeric_due empty_db)).
  reflexivity.
Defined.

Lemma instances_added_witness :
  exists session' added,
    _create_recurring_tasks tmpl_weekly [] = Ok session'
    /\ session' = added
    /\ (added = [] \/ length added = 12%nat \/ length added = 90%nat).
Proof.
  destruct (_create_recurring_tasks tmpl_weekly []) as [session'|e] eqn:Hrun;
    [|vm_compute in Hrun; discriminate].
  destruct (instances_added tmpl_weekly [] session' Hrun)
    as (added & Heq & Hlen & _).
  exists session', added. split; [reflexivity|]. split; assumption.
Defined.


Lemma create_task_reports_lookup_key_witness :
  exists n t,
    find_task n (snd (create_task uuid0 now0 req_plain empty_db)) = Some t.
Proof.
  assert (H201 : exists body,
    fst (create_task uuid0 now0 req_plain empty_db) = Json body 201)
    by (vm_compute; eexists; reflexivity).
  destruct H201 as [body H201].
  destruct (create_task_reports_lookup_key uuid0 now0 req_plain empty_db body
              reach_empty H201) as (n & t & _ & _ & Hf & _).
  exists n, t. exact Hf.
Defined.






Lemma delete_single_removes_only_target_witness :
  exists db',
    delete_task 6 None db_series = (NoContent, db')
    /\ length (tasks db_series) = S (length (tasks db')).
Proof.
  destruct (find_task 6 db_series) as [T|] eqn:Hf;
    [|vm_compute in Hf; discriminate].
  destruct (delete_single_removes_only_target db_series 6 None T
              db_series_reachable Hf) as (db' & Hrun & _ & Hlen).
  - discriminate.
  - exists db'. split; assumption.
Defined.

Lemma deleted_task_is_gone_witness :
  find_task 6 (snd (delete_task 6 (Some "all_future") db_series)) = None.
Proof.
  destruct (find_task 6 db_series) as [T|] eqn:Hf;
    [|vm_compute in Hf; discriminate].
  exact (proj1 (deleted_task_is_gone db_series 6 (Some "all_future") T
                  db_series_reachable Hf)).
Defined.

Lemma delete_event_and_entry_exact_witness :
  exists db',
    delete_event 1 db_one_event = (NoContent, db')
    /\ find_event 1 db' = None.
Proof.
  destruct (find_event 1 db_one_event) as [e|] eqn:Hf;
    [|vm_compute in Hf; discriminate].
  destruct (proj1 (delete_event_and_entry_exact db_one_event 1
                     db_one_event_reachable) e Hf)
    as (db' & Hrun & _ & Hgone).
  exists db'. split; assumption.
Defined.


Lemma get_events_after_create_witness :
  exists body, get_events db_one_event = Ok [body].
Proof.
  assert (H201 : exists body,
    fst (create_event now0 req_event empty_db) = Json body 201)
    by (vm_compute; eexists; reflexivity).
  destruct H201 as [body H201]. exists body.
  exact (get_events_after_create now0 req_event empty_db [] body eq_refl H201).
Defined.

Lemma get_tasks_after_create_witness :
  exists body, get_tasks db_one_task = Ok [body].
Proof.
  assert (H201 : exists body,
    fst (create_task uuid0 now0 req_plain empty_db) = Json body 201)
    by (vm_compute; eexists; reflexivity).
  destruct H201 as [body H201]. exists body.
  exact (get_tasks_after_create uuid0 now0 req_plain empty_db [] body
           eq_refl eq_refl H201).
Defined.

(** ** Further properties: sending a representation back *)

Section Echo.
Context `{DatetimeLib}.

Lemma parse_datetime_iso i :
  dt_isoformat i <> "" ->
  fromisoformat (replace_Z (dt_isoformat i)) = Some i ->
  parse_datetime (PStr (dt_isoformat i)) = Ok (PDateTime i).
Proof.
  intros Hne Hrt. unfold parse_datetime. simpl.
  destruct (String.eqb_spec (dt_isoformat i) ""); [done|]. simpl.
  by rewrite Hrt.
Qed.

(** X26.  On a reachable store, sending a task's own dictionary back as
    an update payload changes nothing: the response is that dictionary
    with status 200 and the store is unchanged. *)
Theorem update_task_with_own_dict task_id db task d :
  reachable db ->
  find_task task_id db = Some task ->
  Task.to_dict task = Ok d ->
  update_task task_id d db = (Json d 200, db).
Proof.
  intros [Hrows Hkeys _]%reachable_db_ok Hf Hd.
  destruct (find_key Task.id _ _ _ Hf) as [Hin Hid].
  rewrite Forall_forall in Hrows.
  destruct (Hrows task) as [_ Ht _ _ _]; [by apply list_elem_of_In|].
  assert (Hsame : updated_task d task = task).
  { revert Hd. unfold Task.to_dict.
    destruct (iso_or_none (Task.due_date task)); simpl; [|done].
    destruct (iso_or_none (Task.start_time task)); simpl; [|done].
    destruct (iso_or_none (Task.end_time task)); simpl; [|done].
    destruct (iso_or_none (Task.created_at task)); simpl; [|done].
    intros [= <-]. unfold updated_task, dget_or. simplify_map_eq.
    by destruct task. }
  destruct (update_task_run task_id d db task Hf) as [[Hn _]|[_ ->]].
  { exfalso. apply Ht.
    replace (Task.title task) with (Task.title (updated_task d task))
      by by rewrite Hsame.
    exact Hn. }
  rewrite Hsame, Hd. simpl. f_equal. unfold set_tasks.
  rewrite (map_update_same Task.id task (tasks db)) by done.
  by destruct db.
Qed.

(** X27.  On a reachable store, sending an event's own dictionary back
    as an update payload changes nothing, provided the library parses
    the ISO text of the event's start and end instants back to those
    instants: the response is that dictionary with status 200 and the
    store is unchanged. *)
Theorem update_event_with_own_dict event_id db event d :
  reachable db ->
  find_event event_id db = Some event ->
  Event.to_dict event = Ok d ->
  (forall i,
     Event.start_time event = PDateTime i \/ Event.end_time event = PDateTime i ->
     dt_isoformat i <> ""
     /\ fromisoformat (replace_Z (dt_isoformat i)) = Some i) ->
  update_event event_id d db = (Json d 200, db).
Proof.
  intros Hreach Hf Hd Hrt.
  destruct (reachable_events_ok db Hreach) as [Hrows Hkeys _].
  destruct (find_key Event.id _ _ _ Hf) as [Hin Hid].
  rewrite Forall_forall in Hrows.
  destruct (Hrows event) as [_ Ht [i Hst] Hen _]; [by apply list_elem_of_In|].
  destruct (Hrt i (or_introl Hst)) as [Hne Hback].
  assert (Hkeys_d :
    d !! "title" = Some (Event.title event)
    /\ d !! "description" = Some (Event.description event)
    /\ d !! "start_time" = Some (PStr (dt_isoformat i))
    /\ exists en_iso, d !! "end_time" = Some en_iso
                      /\ parse_datetime en_iso = Ok (Event.end_time event)).
  { revert Hd. unfold Event.to_dict. rewrite Hst. simpl.
    destruct (iso_or_none (Event.end_time event)) as [en_iso|] eqn:Hiso;
      simpl; [|done].
    destruct (iso_or_none (Event.created_at event)); simpl; [|done].
    intros [= <-]. simplify_map_eq. do 3 (split; [done|]).
    exists en_iso. split; [done|].
    destruct Hen as [Hnone | [j Hj]].
    - rewrite Hnone in Hiso |- *. simpl in Hiso. by injection Hiso as <-.
    - destruct (Hrt j (or_intror Hj)) as [Hnej Hbackj].
      rewrite Hj in Hiso |- *. simpl in Hiso. injection Hiso as <-.
      by apply parse_datetime_iso. }
  destruct Hkeys_d as (Htitle & Hdesc & Hstart & en_iso & Hend & Hparse).
  unfold update_event. rewrite Hf.
  unfold dget, dmem, dget_or. rewrite Hstart, Hend, Htitle, Hdesc. simpl.
  rewrite (parse_datetime_iso i Hne Hback). cbn [rbind].
  rewrite Hparse. cbn [rbind truthy].
  assert (Hsame : {|
      Event.id := Event.id event;
      Event.title := Event.title event;
      Event.description := Event.description event;
      Event.start_time := PDateTime i;
      Event.end_time := Event.end_time event;
      Event.created_at := Event.created_at event |} = event).
  { rewrite <- Hst. by destruct event. }
  rewrite Hsame. unfold update_event_row, Event.not_null_ok.
  rewrite Hst. destruct (Event.title event) eqn:Hti; try done.
  all: cbn [negb rbind]; rewrite Hd; simpl; f_equal; unfold set_events;
       rewrite (map_update_same Event.id event (events db)) by done;
       by destruct db.
Qed.

End Echo.

Lemma task_to_dict_ok t : typed_task t -> exists d, Task.to_dict t = Ok d.
Proof.
  intros [Hd Hs He Hc]. unfold Task.to_dict.
  destruct Hd as [-> | [? ->]], Hs as [-> | [? ->]],
           He as [-> | [? ->]], Hc as [-> | [? ->]]; simpl; eauto.
Qed.

Lemma update_task_with_own_dict_witness :
  exists d, Task.to_dict tmpl_weekly = Ok d
            /\ snd (update_task 1 d db_series) = db_series.
Proof.
  destruct (task_to_dict_ok tmpl_weekly) as [d Hd].
  { split; vm_compute; eauto. }
  exists d. split; [exact Hd|].
  rewrite (update_task_with_own_dict 1 db_series tmpl_weekly d
             db_series_reachable); [reflexivity| |exact Hd].
  vm_compute. reflexivity.
Defined.

Lemma update_event_with_own_dict_witness :
  exists event d,
    find_event 1 db_one_event = Some event
    /\ Event.to_dict event = Ok d
    /\ snd (update_event 1 d db_one_event) = db_one_event.
Proof.
  set (event := {|
      Event.id := PInt 1;
      Event.title := PStr "dentist";
      Event.description := PNone;
      Event.start_time := PDateTime (mkDateTime 738946 36000 0 (Some 0));
      Event.end_time := PDateTime (mkDateTime 738946 39600 0 (Some 0));
      Event.created_at := PDateTime (now0 O) |}).
  assert (Hf : find_event 1 db_one_event = Some event)
    by (vm_compute; reflexivity).
  destruct (event_to_dict_ok event) as [d Hd].
  { split; simpl; eauto; discriminate. }
  exists event, d. split; [exact Hf|]. split; [exact Hd|].
  rewrite (update_event_with_own_dict 1 db_one_event event d
             db_one_event_reachable Hf Hd); [reflexivity|].
  intros i [Hi | Hi]; injection Hi as <-;
    (split; [vm_compute; discriminate|vm_compute; reflexivity]).
Defined.
